(** * CLIP_lightning.ipynb: the CringeCLIP wrapper and its checkpoint notebook

    A shallow embedding of the notebook [src/CLIP_lightning.ipynb]:
    the [CringeCLIPModel] wrapper (forward dispatch, training and
    validation steps), the [DummyDataset] of cell 7, the zero-step
    [pl.Trainer] run with [save_checkpoint], and the reload of cell 11.

    Numbers.  Tensor elements are IEEE-754 values with their exceptional
    members kept apart from the finite ones: a finite element carries a
    real number and the arithmetic on finite elements is exact, so
    rounding, overflow and underflow are not part of the model; infinities
    and NaN arise and propagate as IEEE-754 prescribes.  Zero is unsigned.
    A theorem whose conclusion depends on the value of a finite result
    assumes that the squares and their sum stay in the normal range of
    float32 ([in_f32_range]), where the code's results differ from the
    exact ones by rounding only.

    External collaborators (the pretrained encoders, the tokenizer, the
    optimizer update, the random generator) are the fields of the class
    [Externals]: every theorem holds for all of its instances. *)

From Stdlib Require Import Reals Lra Lia.
From stdpp Require Import base option list gmap strings.

(** ** Tensor elements *)

Inductive scalar : Type :=
  | Fin (r : R)
  | PInf
  | NInf
  | NaN.

Definition is_finite (x : scalar) : bool :=
  match x with Fin _ => true | _ => false end.

Definition is_neg (x : scalar) : bool :=
  match x with
  | Fin r => if Rlt_dec r 0 then true else false
  | NInf => true
  | PInf | NaN => false
  end.

Definition is_zero (x : scalar) : bool :=
  match x with
  | Fin r => if Req_dec_T r 0 then true else false
  | _ => false
  end.

Definition inf_of (negative : bool) : scalar :=
  if negative then NInf else PInf.

Definition sadd (x y : scalar) : scalar :=
  match x, y with
  | NaN, _ | _, NaN => NaN
  | Fin a, Fin b => Fin (a + b)
  | PInf, NInf | NInf, PInf => NaN
  | PInf, _ | _, PInf => PInf
  | NInf, _ | _, NInf => NInf
  end.

Definition sneg (x : scalar) : scalar :=
  match x with
  | Fin a => Fin (- a)
  | PInf => NInf
  | NInf => PInf
  | NaN => NaN
  end.

Definition ssub (x y : scalar) : scalar := sadd x (sneg y).

Definition smul (x y : scalar) : scalar :=
  match x, y with
  | NaN, _ | _, NaN => NaN
  | Fin a, Fin b => Fin (a * b)
  | _, _ =>
      if is_zero x || is_zero y then NaN
      else inf_of (xorb (is_neg x) (is_neg y))
  end.

Definition sdiv (x y : scalar) : scalar :=
  match x, y with
  | NaN, _ | _, NaN => NaN
  | Fin a, Fin b =>
      if Req_dec_T b 0
      then (if Req_dec_T a 0 then NaN else inf_of (is_neg x))
      else Fin (a / b)
  | Fin _, _ => Fin 0
  | _, Fin _ => inf_of (xorb (is_neg x) (is_neg y))
  | _, _ => NaN
  end.

Definition ssqrt (x : scalar) : scalar :=
  match x with
  | Fin a => if Rlt_dec a 0 then NaN else Fin (sqrt a)
  | PInf => PInf
  | NInf | NaN => NaN
  end.

(** ** Tensors *)

(** An n-dimensional tensor: its shape and its elements in row-major order. *)
Record tensor (A : Type) : Type := Tensor {
  shape : list nat;
  data : list A;
}.
Arguments Tensor {A} _ _.
Arguments shape {A} _.
Arguments data {A} _.

(** [t.squeeze(0)]: drops the first dimension when its size is 1. *)
Definition squeeze0 {A} (t : tensor A) : tensor A :=
  match shape t with
  | 1%nat :: s => Tensor s (data t)
  | _ => t
  end.

(** A [batch, D] tensor as its list of rows. *)
Abbreviation matrix := (list (list scalar)).

(** [x.size()] of a [batch, D] tensor with at least one row (a list of
    rows does not record [D] when it is empty). *)
Definition size (x : matrix) : list nat :=
  [length x; length (default [] (head x))].

Definition sum (l : list scalar) : scalar := foldr sadd (Fin 0) l.

(** The L2 norm of one row: [sqrt (sum |x_i|^2)]. *)
Definition row_norm (row : list scalar) : scalar :=
  ssqrt (sum (map (fun v => smul v v) row)).

(** [x.norm(dim=-1, keepdim=True)]: a [batch, 1] tensor. *)
Definition norm_keepdim (x : matrix) : matrix :=
  map (fun row => [row_norm row]) x.

(** Division of a row by a row of the same length, or by a row of length 1
    that is broadcast along the last dimension. *)
Definition div_row (row d : list scalar) : list scalar :=
  match d with
  | [n] => map (fun v => sdiv v n) row
  | _ => zip_with sdiv row d
  end.

(** [x /= n] for [x : [batch, D]] and [n : [batch, 1]]. *)
Definition idiv (x n : matrix) : matrix := zip_with div_row x n.

(** ** Exceptions *)

Inductive exn : Type :=
  | ValueError (msg : string)
  | TypeError
  | RuntimeError
  | AttributeError
  | IndexError
  | NameError (name : string)
  | KeyError (key : string)
  | FileNotFoundError (path : string).

Inductive result (A : Type) : Type :=
  | Ok (a : A)
  | Raise (e : exn).
Arguments Ok {A} _.
Arguments Raise {A} _.

Definition rbind {A B} (r : result A) (k : A -> result B) : result B :=
  match r with
  | Ok a => k a
  | Raise e => Raise e
  end.

(** [o is None]. *)
Definition is_none {A} (o : option A) : bool :=
  match o with None => true | Some _ => false end.

(** ** The wrapper *)

Abbreviation state_dict := (gmap string (tensor scalar)).

(** [CringeCLIPModel]: its one registered submodule is [clip_module], whose
    state is the module's named parameters and buffers. *)
Record CringeCLIPModel : Type := Wrapper {
  clip_module : gmap string (tensor scalar);
}.

(** A value bound to a notebook variable that holds a tensor or [None]. *)
Abbreviation pyval := (option matrix).

(** [F.mse_loss(input, target)] with the default mean reduction, for
    operands with the same number of elements. *)
Definition mse_loss (input : matrix) (target : tensor scalar) : scalar :=
  let d := zip_with (fun a b => let e := ssub a b in smul e e)
             (concat input) (data target) in
  sdiv (sum d) (Fin (INR (length d))).

Definition F_mse_loss (input : pyval) (target : tensor scalar) : result scalar :=
  match input with
  | Some y => Ok (mse_loss y target)
  | None => Raise AttributeError
  end.

(** [default_collate]: stacks the items of a batch along a new first
    dimension. *)
Definition stack {A} (ts : list (tensor A)) : tensor A :=
  Tensor (length ts :: default [] (shape <$> head ts)) (concat (data <$> ts)).

(** Keys of the wrapper's own [state_dict()]: the submodule's keys behind
    the attribute name. *)
Definition prefixed (k : string) : string := "clip_module." +:+ k.

(** [int(n * num / den)] for small non-negative operands. *)
Definition int_frac (n num den : nat) : nat := (n * num / den)%nat.

(** Batches of at most [n] elements, in order ([drop_last=False]). *)
Fixpoint batches_go {A} (fuel n : nat) (l : list A) : list (list A) :=
  match fuel with
  | O => []
  | S fuel =>
      match l with
      | [] => []
      | _ => take n l :: batches_go fuel n (drop n l)
      end
  end.

Definition batches {A} (n : nat) (l : list A) : list (list A) :=
  batches_go (length l) n l.

Definition numel (s : list nat) : nat := foldr Nat.mul 1%nat s.

(** The sum of the squares of a list of reals. *)
Definition sum_sq (rs : list R) : R := foldr (fun r acc => (r * r + acc)%R) 0%R rs.

(** The element is zero or a finite number whose magnitude lies in the
    normal range of float32, with a factor 2 to spare below the largest
    float: computed in float32, such a result neither overflows nor
    underflows. *)
Definition in_f32_range (v : scalar) : Prop :=
  match v with
  | Fin r => r = 0%R \/ (/ 2 ^ 126 <= Rabs r <= 2 ^ 127)%R
  | _ => False
  end.

(** Every square of the row and the sum of the squares are in range. *)
Definition squares_in_range (row : list scalar) : Prop :=
  Forall (fun v => in_f32_range (smul v v)) row
  /\ in_f32_range (sum (map (fun v => smul v v) row)).

(** ** External collaborators *)

Class Externals : Type := {
  (** [clip_module.encode_text] and [clip_module.encode_image], as functions
      of the module's state. *)
  encode_text : gmap string (tensor scalar) -> tensor Z -> matrix;
  encode_image : gmap string (tensor scalar) -> tensor scalar -> matrix;
  (** [open_clip.get_tokenizer("RN50")]. *)
  tokenizer : list string -> tensor Z;
  (** The names and shapes of the entries of an RN50 CLIP module. *)
  arch : list (string * list nat);
  (** The global random generator: one standard normal sample, the
      initialiser of a named parameter, and [torch.randperm]. *)
  Rng : Type;
  normal : Rng -> R * Rng;
  init_param : string -> list nat -> Rng -> list scalar * Rng;
  randperm : nat -> Rng -> list nat * Rng;
  (** The optimizer of [configure_optimizers]: Adam's state and one update
      of the parameters from a batch (backward pass and [optimizer.step]). *)
  OptState : Type;
  adam_init : OptState;
  adam_step :
    OptState -> gmap string (tensor scalar) -> tensor Z * tensor scalar ->
    OptState * gmap string (tensor scalar);
}.

Section Notebook.

Context `{!Externals}.

(** *** [CringeCLIPModel] methods *)

(** [forward(self, text=None, image=None)] (lines 44-56, and again
    281-293).  The result [Ok None] stands for leaving the [if]/[elif]
    chain without a [return]. *)
Definition forward (self : CringeCLIPModel)
    (text : option (tensor Z)) (image : option (tensor scalar))
    : result pyval :=
  if is_none text && is_none image then
    Raise (ValueError "Must provide either text or image")
  else
    match image with
    | Some image =>
        let x := encode_image (clip_module self) image in
        let x := idiv x (norm_keepdim x) in
        Ok (Some x)
    | None =>
        match text with
        | Some text =>
            let x := encode_text (clip_module self) text in
            let x := idiv x (norm_keepdim x) in
            Ok (Some x)
        | None => Ok None
        end
    end.

(** [training_step] (lines 68-73) and [validation_step] (lines 75-80). *)
Definition training_step (self : CringeCLIPModel)
    (train_batch : tensor Z * tensor scalar) (batch_idx : nat)
    : result scalar :=
  let '(text, output) := train_batch in
  rbind (forward self (Some text) None) (fun y =>
  rbind (F_mse_loss y output) (fun loss =>
  Ok loss)).

Definition validation_step (self : CringeCLIPModel)
    (train_batch : tensor Z * tensor scalar) (batch_idx : nat)
    : result scalar :=
  let '(text, output) := train_batch in
  rbind (forward self (Some text) None) (fun y =>
  rbind (F_mse_loss y output) (fun loss =>
  Ok loss)).

(** The tensor [x] that the branch taken by [forward] gets from its
    encoder, before the division. *)
Definition raw_embedding (self : CringeCLIPModel)
    (text : option (tensor Z)) (image : option (tensor scalar))
    : option matrix :=
  match image with
  | Some image => Some (encode_image (clip_module self) image)
  | None =>
      match text with
      | Some text => Some (encode_text (clip_module self) text)
      | None => None
      end
  end.

(** [self.state_dict()]. *)
Definition state_dict_of (self : CringeCLIPModel) : state_dict :=
  kmap prefixed (clip_module self).

(** What [load_state_dict] leaves in a module with state [cur]: every own
    entry that [sd] has under [key] with the same shape is overwritten. *)
Definition copy_params (key : string -> string) (cur sd : state_dict)
    : state_dict :=
  map_imap (fun k t =>
    Some (match sd !! key k with
          | Some t' =>
              if decide (shape t' = shape t) then Tensor (shape t) (data t')
              else t
          | None => t
          end)) cur.

(** The strict check of [load_state_dict]: no missing key, no unexpected
    key, no size mismatch. *)
Definition strict_ok (own sd : state_dict) : bool :=
  bool_decide (shape <$> sd = shape <$> own).

(** [self.load_state_dict(sd)]: the state it leaves and its outcome. *)
Definition load_state_dict (self : CringeCLIPModel) (sd : state_dict)
    : CringeCLIPModel * result unit :=
  (Wrapper (copy_params prefixed (clip_module self) sd),
   if strict_ok (state_dict_of self) sd then Ok tt else Raise RuntimeError).

(** [clip_module.load_state_dict(sd)]. *)
Definition module_load_state_dict (cur sd : state_dict)
    : state_dict * result unit :=
  (copy_params (fun k => k) cur sd,
   if strict_ok cur sd then Ok tt else Raise RuntimeError).

(** *** Files *)

Record checkpoint : Type := Checkpoint {
  ck_state_dict : state_dict;
  ck_global_step : nat;
  ck_optimizer_states : list OptState;
}.

Inductive file : Type :=
  | StateDictFile (sd : state_dict)
  | CheckpointFile (ck : checkpoint).

(** *** Notebook state *)

Inductive class_def : Type := ClassCell1 | ClassCell9.

Record Trainer : Type := MkTrainer {
  max_steps : nat;
  global_step : nat;
  lightning_module : option nat;
  optimizer_state : option OptState;
}.

(** The kernel's state: the files the notebook names (the pretrained
    weights and the checkpoint), the random generator, the wrapper objects
    allocated so far (a name holds the index of its object), the
    notebook's global names, and the values its [print] calls wrote.  What
    the framework writes of its own accord (progress bars, warnings, the
    [lightning_logs] folder) is not part of the state. *)
Record notebook : Type := Notebook {
  fs : gmap string file;
  rng : Rng;
  heap : list CringeCLIPModel;
  cls : option class_def;
  model : option nat;
  example_output : option pyval;
  x : option pyval;
  model_trainer : option Trainer;
  stdout : list pyval;
}.

Definition set_fs f st :=
  Notebook f (rng st) (heap st) (cls st) (model st) (example_output st)
    (x st) (model_trainer st) (stdout st).
Definition set_rng g st :=
  Notebook (fs st) g (heap st) (cls st) (model st) (example_output st)
    (x st) (model_trainer st) (stdout st).
Definition set_heap h st :=
  Notebook (fs st) (rng st) h (cls st) (model st) (example_output st)
    (x st) (model_trainer st) (stdout st).
Definition set_cls c st :=
  Notebook (fs st) (rng st) (heap st) c (model st) (example_output st)
    (x st) (model_trainer st) (stdout st).
Definition set_model m st :=
  Notebook (fs st) (rng st) (heap st) (cls st) m (example_output st)
    (x st) (model_trainer st) (stdout st).
Definition set_example_output e st :=
  Notebook (fs st) (rng st) (heap st) (cls st) (model st) e
    (x st) (model_trainer st) (stdout st).
Definition set_model_trainer t st :=
  Notebook (fs st) (rng st) (heap st) (cls st) (model st) (example_output st)
    (x st) t (stdout st).
Definition set_stdout o st :=
  Notebook (fs st) (rng st) (heap st) (cls st) (model st) (example_output st)
    (x st) (model_trainer st) o.

(** Statements of a cell: they transform the kernel state and either
    complete or raise; the state reached when raising is kept. *)
Definition M (A : Type) : Type := notebook -> notebook * result A.

#[local] Instance M_ret : MRet M := fun A a st => (st, Ok a).
#[local] Instance M_bind : MBind M := fun A B k m st =>
  match m st with
  | (st', Ok a) => k a st'
  | (st', Raise e) => (st', Raise e)
  end.

Definition raise {A} (e : exn) : M A := fun st => (st, Raise e).
Definition lift {A} (r : result A) : M A := fun st => (st, r).
Definition gets {A} (f : notebook -> A) : M A := fun st => (st, Ok (f st)).
Definition modify (f : notebook -> notebook) : M unit :=
  fun st => (f st, Ok tt).

(** Reading a global name. *)
Definition global {A} (name : string) (f : notebook -> option A) : M A :=
  v ← gets f;
  match v with
  | Some a => mret a
  | None => raise (NameError name)
  end.

Definition deref (a : nat) : M CringeCLIPModel :=
  h ← gets heap;
  match h !! a with
  | Some w => mret w
  | None => raise RuntimeError
  end.

Definition alloc (w : CringeCLIPModel) : M nat :=
  h ← gets heap;
  modify (set_heap (h ++ [w])) ;;
  mret (length h).

Definition store (a : nat) (w : CringeCLIPModel) : M unit :=
  h ← gets heap;
  modify (set_heap (<[a := w]> h)).

Definition print (v : pyval) : M unit :=
  o ← gets stdout;
  modify (set_stdout (o ++ [v])).

(** *** Library calls that read the kernel state *)

Fixpoint draws (n : nat) (g : Rng) : list scalar * Rng :=
  match n with
  | O => ([], g)
  | S n =>
      let '(v, g) := normal g in
      let '(vs, g) := draws n g in
      (Fin v :: vs, g)
  end.

(** [torch.randn(size)]. *)
Definition randn (s : list nat) : M (tensor scalar) := fun st =>
  let '(vs, g) := draws (numel s) (rng st) in
  (set_rng g st, Ok (Tensor s vs)).

Fixpoint init_params (a : list (string * list nat)) (g : Rng)
    : state_dict * Rng :=
  match a with
  | [] => (∅, g)
  | (name, s) :: a =>
      let '(vs, g) := init_param name s g in
      let '(m, g) := init_params a g in
      (<[name := Tensor s vs]> m, g)
  end.

(** [open_clip.create_model_and_transforms("RN50")]: a freshly
    initialised module. *)
Definition create_model_and_transforms : M state_dict := fun st =>
  let '(p, g) := init_params arch (rng st) in
  (set_rng g st, Ok p).

(** [torch.load(path)]. *)
Definition torch_load (path : string) : M file :=
  f ← gets fs;
  match f !! path with
  | Some o => mret o
  | None => raise (FileNotFoundError path)
  end.

(** *** Cells 1 and 9: the two definitions of the class

    The class of cell 1 (lines 32-80) loads the pretrained file in
    [__init__] (line 41); the class of cell 9 (lines 270-317) does not.
    The other methods are the same text. *)

Definition init_cell1 : M CringeCLIPModel :=
  p ← create_model_and_transforms;
  f ← torch_load "rn50-quickgelu-yfcc15m.pt";
  sd ← lift (match f with
             | StateDictFile sd => Ok sd
             | CheckpointFile _ => Raise RuntimeError
             end);
  let '(p', r) := module_load_state_dict p sd in
  lift r ;;
  mret (Wrapper p').

Definition init_cell9 : M CringeCLIPModel :=
  p ← create_model_and_transforms;
  mret (Wrapper p).

(** [CringeCLIPModel()] under the definition in force. *)
Definition construct : M nat :=
  c ← global "CringeCLIPModel" cls;
  w ← match c with
      | ClassCell1 => init_cell1
      | ClassCell9 => init_cell9
      end;
  alloc w.

Definition cell1 : M unit := modify (set_cls (Some ClassCell1)).
Definition cell9 : M unit := modify (set_cls (Some ClassCell9)).

(** *** Cell 3 (line 103) *)

Definition cell3 : M unit :=
  a ← construct;
  modify (set_model (Some a)).

(** *** Cell 5 (lines 131-132) *)

Definition cell5 : M unit :=
  a ← global "model" model;
  w ← deref a;
  y ← lift (forward w (Some (tokenizer ["a photo of a cat"])) None);
  modify (set_example_output (Some y)) ;;
  v ← global "x" x;
  print v.

(** *** Cell 7 (lines 218-241): the dummy dataset, the zero-step run and
    the checkpoint *)

Record DummyDataset : Type := MkDummyDataset {
  constant : nat;
  batch_size : nat;
}.

Definition DummyDataset_init : DummyDataset := MkDummyDataset 2 20.

Definition DummyDataset_len (self : DummyDataset) : nat := 100.

(** [DummyDataset.__getitem__(self, idx)]. *)
Definition getitem (self : DummyDataset) (idx : nat)
    : M (tensor Z * tensor scalar) :=
  a ← global "model" model;
  deref a ;;
  let text := squeeze0 (tokenizer ["a photo of a cat"]) in
  e ← global "example_output" example_output;
  e ← lift (match e with Some t => Ok t | None => Raise AttributeError end);
  r ← randn (size e);
  let output := squeeze0 r in
  mret (text, output).

(** [torch.utils.data.Subset]. *)
Record Subset : Type := MkSubset {
  dataset : DummyDataset;
  indices : list nat;
}.

Definition Subset_getitem (self : Subset) (idx : nat)
    : M (tensor Z * tensor scalar) :=
  match indices self !! idx with
  | Some i => getitem (dataset self) i
  | None => raise IndexError
  end.

Fixpoint slices (lengths : list nat) (perm : list nat) : list (list nat) :=
  match lengths with
  | [] => []
  | n :: lengths => take n perm :: slices lengths (drop n perm)
  end.

(** [torch.utils.data.random_split(dataset, lengths)]. *)
Definition random_split (ds : DummyDataset) (lengths : list nat)
    : M (list Subset) :=
  if bool_decide (list_sum lengths = DummyDataset_len ds) then
    fun st =>
      let '(perm, g) := randperm (list_sum lengths) (rng st) in
      (set_rng g st, Ok (MkSubset ds <$> slices lengths perm))
  else
    raise (ValueError
      "Sum of input lengths does not equal the length of the input dataset!").

(** [DataLoader(subset, batch_size=n)] with [n] positive: sequential
    sampling, the last partial batch kept. *)
Record DataLoader : Type := MkDataLoader {
  dl_dataset : Subset;
  dl_batch_size : nat;
}.

Definition loader_batches (dl : DataLoader) : list (list nat) :=
  batches (dl_batch_size dl) (seq 0 (length (indices (dl_dataset dl)))).

Fixpoint for_each {A B} (f : A -> M B) (l : list A) : M (list B) :=
  match l with
  | [] => mret []
  | a :: l => b ← f a; bs ← for_each f l; mret (b :: bs)
  end.

(** One batch of a loader: its items fetched in order and collated. *)
Definition fetch (dl : DataLoader) (b : list nat)
    : M (tensor Z * tensor scalar) :=
  items ← for_each (Subset_getitem (dl_dataset dl)) b;
  mret (stack (fst <$> items), stack (snd <$> items)).

(** The sanity check of [Trainer.fit]: [validation_step] on the first
    two validation batches. *)
Definition sanity_check (a : nat) (vl : DataLoader) : M unit :=
  for_each (fun '(i, b) =>
      batch ← fetch vl b;
      w ← deref a;
      lift (validation_step w batch i))
    (imap pair (take 2 (loader_batches vl))) ;;
  mret tt.

(** [loss.backward()] on the loss of [training_step].  [forward] divides
    [x] in place ([x /= x.norm(...)], lines 50 and 55) after [x.norm] has
    saved [x] for its gradient, so autograd finds the saved tensor
    modified and raises. *)
Definition backward (loss : scalar) : result unit := Raise RuntimeError.

(** The training loop: per batch, cycling through the loader, the loss,
    its backward pass and one optimizer step, until [remaining] steps are
    done or the loader is empty. *)
Fixpoint fit_loop (remaining step : nat) (a : nat) (tl : DataLoader)
    (opt : OptState) : M (nat * OptState) :=
  match remaining with
  | O => mret (step, opt)
  | S remaining =>
      let bs := loader_batches tl in
      match bs !! (step mod length bs)%nat with
      | None => mret (step, opt)
      | Some b =>
          batch ← fetch tl b;
          w ← deref a;
          loss ← lift (training_step w batch (step mod length bs)%nat);
          lift (backward loss) ;;
          let '(opt, p) := adam_step opt (clip_module w) batch in
          store a (Wrapper p) ;;
          fit_loop remaining (S step) a tl opt
      end
  end.

(** [pl.Trainer(max_steps=n)]. *)
Definition new_Trainer (n : nat) : Trainer := MkTrainer n 0 None None.

(** [trainer.fit(model, train_loader, val_loader)]: the sanity check, then
    the training loop. *)
Definition fit (t : Trainer) (a : nat) (tl vl : DataLoader) : M Trainer :=
  deref a ;;
  sanity_check a vl ;;
  '(step, opt) ← fit_loop (max_steps t - global_step t) (global_step t)
                   a tl adam_init;
  mret (MkTrainer (max_steps t) step (Some a) (Some opt)).

(** [trainer.save_checkpoint(path)]. *)
Definition save_checkpoint (t : Trainer) (path : string) : M unit :=
  a ← lift (match lightning_module t with
            | Some a => Ok a
            | None => Raise AttributeError
            end);
  w ← deref a;
  let ck := Checkpoint (state_dict_of w) (global_step t)
              (option_list (optimizer_state t)) in
  f ← gets fs;
  modify (set_fs (<[path := CheckpointFile ck]> f)).

Definition cell7 : M unit :=
  let dataset := DummyDataset_init in
  parts ← random_split dataset
             [int_frac (DummyDataset_len dataset) 8 10;
              int_frac (DummyDataset_len dataset) 2 10];
  '(training_set, validation_set) ←
     lift (match parts with
           | [a; b] => Ok (a, b)
           | _ => Raise (ValueError "unpack")
           end);
  let train_loader := MkDataLoader training_set 10 in
  let val_loader := MkDataLoader validation_set 10 in
  modify (set_model_trainer (Some (new_Trainer 0))) ;;
  a ← global "model" model;
  t ← fit (new_Trainer 0) a train_loader val_loader;
  modify (set_model_trainer (Some t)) ;;
  save_checkpoint t "cringe_clip.ckpt".

(** *** Cell 11 (lines 345-351): a fresh wrapper, the reload and the
    inference *)

Definition cell11 : M unit :=
  a ← construct;
  modify (set_model (Some a)) ;;
  a ← global "model" model;
  w ← deref a;
  f ← torch_load "cringe_clip.ckpt";
  sd ← lift (match f with
             | CheckpointFile ck => Ok (ck_state_dict ck)
             | StateDictFile sd =>
                 match sd !! "state_dict" with
                 | Some _ => Raise TypeError
                 | None => Raise (KeyError "state_dict")
                 end
             end);
  let '(w', r) := load_state_dict w sd in
  store a w' ;;
  lift r ;;
  a ← global "model" model;
  w ← deref a;
  y ← lift (forward w (Some (tokenizer ["a photo of a cat"])) None);
  modify (set_example_output (Some y)) ;;
  v ← global "example_output" example_output;
  print v.

(** *** The state the harness runs in *)

(** The global [model] names the wrapper object [w] and the global
    [example_output] holds the tensor [e], as cells 3 and 5 leave them. *)
Definition ready (st : notebook) (a : nat) (w : CringeCLIPModel)
    (e : matrix) : Prop :=
  model st = Some a /\ heap st !! a = Some w
  /\ example_output st = Some (Some e).

(** The item of [DummyDataset] has the fixed text and a target with the
    shape of one row of [e]. *)
Definition dummy_item (e : matrix) (it : tensor Z * tensor scalar) : Prop :=
  it.1 = squeeze0 (tokenizer ["a photo of a cat"])
  /\ shape it.2 = shape (squeeze0 (Tensor (size e) ([] : list scalar)))
  /\ length (data it.2) = numel (size e)
  /\ Forall (fun v => is_finite v = true) (data it.2).

(** The wrapper has the entries of the architecture, with their shapes. *)
Definition conforms (w : CringeCLIPModel) : Prop :=
  shape <$> clip_module w = list_to_map arch.

End Notebook.

(** ** A small instance *)

(** A module with one entry, ["w"], of shape [[2]]; the text embedding of
    every input row is that entry, the image embedding is the image's own
    data; the generator is a counter and initialises with zeros. *)
Definition toy_encode_text (p : gmap string (tensor scalar)) (t : tensor Z)
    : matrix :=
  replicate (default 0%nat (head (shape t))) (default [] (data <$> p !! "w")).

Definition toy_encode_image (p : gmap string (tensor scalar))
    (t : tensor scalar) : matrix :=
  replicate (default 0%nat (head (shape t))) (data t).

Definition toy_tokenizer (texts : list string) : tensor Z :=
  Tensor [length texts; 1%nat] ((fun s => Z.of_nat (String.length s)) <$> texts).

Definition toy_adam_step (o : unit) (p : gmap string (tensor scalar))
    (b : tensor Z * tensor scalar) : unit * gmap string (tensor scalar) :=
  (tt, (fun t => Tensor (shape t) (sadd (Fin 1) <$> data t)) <$> p).

Definition toy : Externals := {|
  encode_text := toy_encode_text;
  encode_image := toy_encode_image;
  tokenizer := toy_tokenizer;
  arch := [("w", [2%nat])];
  Rng := nat;
  normal := fun g => (0%R, S g);
  init_param := fun _ s g => (replicate (numel s) (Fin 0), S g);
  randperm := fun n g => (seq 0 n, S g);
  OptState := unit;
  adam_init := tt;
  adam_step := toy_adam_step;
|}.

Definition toy_wrapper (a b : R) : CringeCLIPModel :=
  Wrapper {[ "w" := Tensor [2%nat] [Fin a; Fin b] ]}.

Definition toy_text : tensor Z := toy_tokenizer ["a photo of a cat"].

Definition toy_image : tensor scalar := Tensor [1%nat; 2%nat] [Fin 0; Fin 2].

(** The embedding [forward] computes from a raw embedding. *)
Definition normalized (raw : matrix) : matrix := idiv raw (norm_keepdim raw).

(** The kernel after cells 1, 3 and 5: one wrapper with entry [[1; 0]],
    its embedding of the text in [example_output], no files. *)
Definition toy_state : @notebook toy :=
  @Notebook toy ∅ 0%nat [toy_wrapper 1 0] (Some ClassCell1) (Some 0%nat)
    (Some (Some (normalized [[Fin 1; Fin 0]]))) None None [].

(** A checkpoint that does not hold what the wrapper of [toy_state] has. *)
Definition stale_checkpoint : @checkpoint toy :=
  @Checkpoint toy {[ "clip_module.w" := Tensor [2%nat] [Fin 0; Fin 0] ]}
    0%nat [tt].

(** The kernel before cell 11, with the stale checkpoint in the file. *)
Definition toy_state_stale : @notebook toy :=
  @Notebook toy {[ "cringe_clip.ckpt" := @CheckpointFile toy stale_checkpoint ]}
    0%nat [toy_wrapper 1 0] (Some ClassCell9) (Some 0%nat)
    (Some (Some (normalized [[Fin 1; Fin 0]]))) None None [].

(** A kernel in which cell 1 has run and the pretrained file holds the
    entry [[1; 0]]. *)
Definition toy_state_cell1 : @notebook toy :=
  @Notebook toy
    {[ "rn50-quickgelu-yfcc15m.pt" :=
         @StateDictFile toy {[ "w" := Tensor [2%nat] [Fin 1; Fin 0] ]} ]}
    0%nat [] (Some ClassCell1) None None None None [].

(** The same kernel without the pretrained file. *)
Definition toy_state_no_file : @notebook toy :=
  @Notebook toy ∅ 0%nat [] (Some ClassCell1) None None None None [].

(** The kernel after cells 1 and 3, before cell 5. *)
Definition toy_state_no_output : @notebook toy :=
  @Notebook toy ∅ 0%nat [toy_wrapper 1 0] (Some ClassCell1) (Some 0%nat)
    None None None [].

(** The kernel before cell 11 with no checkpoint file. *)
Definition toy_state_no_ckpt : @notebook toy :=
  @Notebook toy ∅ 0%nat [toy_wrapper 1 0] (Some ClassCell9) (Some 0%nat)
    (Some (Some (normalized [[Fin 1; Fin 0]]))) None None [].

(** A checkpoint whose state dict has the key without the prefix. *)
Definition unprefixed_checkpoint : @checkpoint toy :=
  @Checkpoint toy {[ "w" := Tensor [2%nat] [Fin 1; Fin 0] ]} 0%nat [tt].

Definition toy_state_bad_ckpt : @notebook toy :=
  @Notebook toy
    {[ "cringe_clip.ckpt" := @CheckpointFile toy unprefixed_checkpoint ]}
    0%nat [toy_wrapper 1 0] (Some ClassCell9) (Some 0%nat)
    (Some (Some (normalized [[Fin 1; Fin 0]]))) None None [].

(** The checkpoint cell 7 writes for the wrapper with entry [[1; 0]], in
    a kernel that holds no wrapper. *)
Definition saved_checkpoint : @checkpoint toy :=
  @Checkpoint toy {[ "clip_module.w" := Tensor [2%nat] [Fin 1; Fin 0] ]}
    0%nat [tt].

Definition toy_state_restart : @notebook toy :=
  @Notebook toy
    {[ "cringe_clip.ckpt" := @CheckpointFile toy saved_checkpoint ]}
    0%nat [] (Some ClassCell9) None None None None [].

(** * Properties *)

Local Open Scope R_scope.

(** ** Arithmetic of tensor elements *)

Lemma sdiv_zero_not_finite (v : scalar) : is_finite (sdiv v (Fin 0)) = false.
Proof.
  destruct v as [a| | |]; simpl; try reflexivity.
  - destruct (Req_dec_T 0 0) as [_|Hne]; [|contradiction].
    destruct (Req_dec_T a 0); [reflexivity|].
    destruct (Rlt_dec a 0); reflexivity.
  - destruct (Rlt_dec 0 0); reflexivity.
  - destruct (Rlt_dec 0 0); reflexivity.
Qed.

Lemma sdiv_fin (a n : R) : n <> 0 -> sdiv (Fin a) (Fin n) = Fin (a / n).
Proof. intros Hn. simpl. destruct (Req_dec_T n 0); [contradiction|reflexivity]. Qed.

Lemma sum_sq_nonneg (rs : list R) : 0 <= sum_sq rs.
Proof. induction rs as [|r rs IH]; simpl; [lra|nra]. Qed.

Lemma sum_squares_fin (rs : list R) :
  sum (map (fun v => smul v v) (Fin <$> rs)) = Fin (sum_sq rs).
Proof.
  induction rs as [|r rs IH]; [reflexivity|].
  cbn [fmap list_fmap map sum foldr sum_sq] in *.
  unfold sum in IH. rewrite IH. reflexivity.
Qed.

(** A finite sum of squares has finite terms only. *)
Lemma sum_squares_fin_inv (row : list scalar) (s : R) :
  sum (map (fun v => smul v v) row) = Fin s ->
  exists rs, row = Fin <$> rs /\ s = sum_sq rs.
Proof.
  revert s. induction row as [|v row IH]; intros s Hs.
  - exists []. split; [reflexivity|]. injection Hs as <-. reflexivity.
  - cbn [map sum foldr] in Hs.
    change (foldr sadd (Fin 0) (map (fun v => smul v v) row))
      with (sum (map (fun v => smul v v) row)) in Hs.
    destruct (sum (map (fun v => smul v v) row)) as [b| | |] eqn:Hrow;
      destruct v as [a| | |]; simpl in Hs; try discriminate.
    destruct (IH b eq_refl) as (rs & -> & ->).
    exists (a :: rs). split; [reflexivity|]. injection Hs as <-. reflexivity.
Qed.

Lemma row_norm_fin (rs : list R) :
  row_norm (Fin <$> rs) = Fin (sqrt (sum_sq rs)).
Proof.
  unfold row_norm. rewrite sum_squares_fin. simpl.
  destruct (Rlt_dec (sum_sq rs) 0) as [Hlt|_]; [|reflexivity].
  pose proof (sum_sq_nonneg rs). lra.
Qed.

Lemma row_norm_fin_inv (row : list scalar) (n : R) :
  row_norm row = Fin n ->
  exists rs, row = Fin <$> rs /\ n = sqrt (sum_sq rs).
Proof.
  unfold row_norm. intros Hn.
  destruct (sum (map (fun v => smul v v) row)) as [s| | |] eqn:Hs;
    simpl in Hn; try discriminate.
  destruct (Rlt_dec s 0); [discriminate|].
  destruct (sum_squares_fin_inv _ _ Hs) as (rs & -> & ->).
  exists rs. split; [reflexivity|congruence].
Qed.


Lemma sdiv_fin_row (rs : list R) (n : R) :
  n <> 0 ->
  (fun v => sdiv v (Fin n)) <$> (Fin <$> rs) = Fin <$> ((fun r => r / n) <$> rs).
Proof.
  intros Hn. induction rs as [|r rs IH]; [reflexivity|].
  cbn [fmap list_fmap] in *. rewrite IH, (sdiv_fin r n Hn). reflexivity.
Qed.


(** ** The division of [forward] *)

Lemma idiv_norm_keepdim (x : matrix) :
  idiv x (norm_keepdim x)
  = (fun row => (fun v => sdiv v (row_norm row)) <$> row) <$> x.
Proof.
  unfold idiv, norm_keepdim.
  induction x as [|row x IH]; [reflexivity|].
  simpl. f_equal. exact IH.
Qed.

Section ForwardProperties.

Context `{!Externals}.

Lemma forward_raw (self : CringeCLIPModel)
    (text : option (tensor Z)) (image : option (tensor scalar)) (raw : matrix) :
  raw_embedding self text image = Some raw ->
  forward self text image = Ok (Some (idiv raw (norm_keepdim raw))).
Proof.
  unfold raw_embedding, forward.
  destruct image as [im|], text as [t|]; simpl; intros Hraw;
    try discriminate; injection Hraw as <-; reflexivity.
Qed.

(** C3.  [forward] raises the usage error exactly when both [text] and
    [image] are [None]; it raises nothing else, and when one of them is
    supplied it returns an embedding. *)
Theorem forward_value_error_iff (self : CringeCLIPModel)
    (text : option (tensor Z)) (image : option (tensor scalar)) :
  (forward self text image
     = Raise (ValueError "Must provide either text or image")
   <-> text = None /\ image = None)
  /\ (forall e, forward self text image = Raise e ->
        e = ValueError "Must provide either text or image")
  /\ (text <> None \/ image <> None ->
        exists x, forward self text image = Ok (Some x)).
Proof.
  unfold forward.
  destruct text as [t|], image as [im|]; simpl; repeat split;
    try (intros [? ?]; discriminate); try discriminate; try eauto;
    try (intros e He; congruence).
  intros [Hne|Hne]; contradiction.
Qed.

(** C4.  When both a text and an image are supplied, [forward] takes the
    image branch: the result is that of the call with the image alone,
    namely the normalised image embedding, whatever the text. *)
Theorem forward_image_precedence (self : CringeCLIPModel)
    (text : tensor Z) (image : tensor scalar) :
  forward self (Some text) (Some image) = forward self None (Some image)
  /\ forward self (Some text) (Some image)
     = Ok (Some (idiv (encode_image (clip_module self) image)
                   (norm_keepdim (encode_image (clip_module self) image)))).
Proof. split; reflexivity. Qed.

(** C9.  No combination of arguments makes [forward] leave its
    [if]/[elif] chain without returning: it either raises the usage
    error or returns a tensor, never [None]. *)
Theorem forward_never_none (self : CringeCLIPModel)
    (text : option (tensor Z)) (image : option (tensor scalar)) :
  forward self text image <> Ok None
  /\ (forward self text image
        = Raise (ValueError "Must provide either text or image")
      \/ exists x, forward self text image = Ok (Some x)).
Proof.
  unfold forward.
  destruct text as [t|], image as [im|]; simpl; split;
    try discriminate; eauto.
Qed.

(** C10.  [training_step] and [validation_step] are the same function:
    on every batch [(text, output)] and batch index both return the MSE
    loss between the text embedding [forward(text=text)] and [output]. *)
Theorem training_step_validation_step (self : CringeCLIPModel)
    (text : tensor Z) (output : tensor scalar) (batch_idx : nat) :
  training_step self (text, output) batch_idx
    = validation_step self (text, output) batch_idx
  /\ exists y,
       forward self (Some text) None = Ok (Some y)
       /\ training_step self (text, output) batch_idx
          = Ok (mse_loss y output)
       /\ validation_step self (text, output) batch_idx
          = Ok (mse_loss y output).
Proof.
  split; [reflexivity|].
  eexists. repeat split; reflexivity.
Qed.

(** C5.  The division of [forward] is by the row's L2 norm itself, with
    no guard and no epsilon: every output row is the raw row divided
    element by element by its norm, and a raw row whose norm is exactly
    zero gives an output row, of the same length, all of whose elements
    are non-finite. *)
Theorem forward_division_unguarded (self : CringeCLIPModel)
    (text : option (tensor Z)) (image : option (tensor scalar)) (raw : matrix) :
  raw_embedding self text image = Some raw ->
  exists x,
    forward self text image = Ok (Some x)
    /\ x = (fun row => (fun v => sdiv v (row_norm row)) <$> row) <$> raw
    /\ forall (i : nat) (row : list scalar),
         raw !! i = Some row -> row_norm row = Fin 0 ->
         exists out,
           x !! i = Some out /\ length out = length row
           /\ Forall (fun v => is_finite v = false) out.
Proof.
  intros Hraw. eexists. split; [apply forward_raw, Hraw|].
  split; [apply idiv_norm_keepdim|].
  intros i row Hi Hzero. rewrite idiv_norm_keepdim.
  exists ((fun v => sdiv v (row_norm row)) <$> row).
  rewrite list_lookup_fmap, Hi. split; [reflexivity|].
  split; [apply length_fmap|].
  rewrite Hzero. apply Forall_fmap, Forall_forall.
  intros v _. apply sdiv_zero_not_finite.
Qed.


End ForwardProperties.

(** ** More on the division of [forward] *)

Lemma all_finite_inv (row : list scalar) :
  Forall (fun v => is_finite v = true) row -> exists rs, row = Fin <$> rs.
Proof.
  induction 1 as [|v row Hv _ [rs ->]]; [by exists []|].
  destruct v as [r| | |]; try discriminate. by exists (r :: rs).
Qed.

Lemma row_norm_fin_all_finite (row : list scalar) (n : R) :
  row_norm row = Fin n -> Forall (fun v => is_finite v = true) row.
Proof.
  intros (rs & -> & _)%row_norm_fin_inv.
  apply Forall_fmap, Forall_forall. by intros.
Qed.

(** A finite quotient by a non-finite divisor has a finite dividend. *)
Lemma sdiv_finite_dividend (v d : scalar) :
  is_finite d = false -> is_finite (sdiv v d) = true -> is_finite v = true.
Proof.
  destruct d as [b| | |], v as [a| | |]; simpl; try discriminate; auto.
Qed.

Lemma row_norm_nil : row_norm [] = Fin 0.
Proof.
  unfold row_norm. simpl.
  destruct (Rlt_dec 0 0) as [Hlt|_]; [lra|]. by rewrite sqrt_0.
Qed.

(** A row of non-finite elements has no finite norm. *)
Lemma row_norm_not_finite (row : list scalar) (v : scalar) :
  v ∈ row -> is_finite v = false -> is_finite (row_norm row) = false.
Proof.
  intros Hv Hnf. destruct (row_norm row) as [n| | |] eqn:Hrow; try reflexivity.
  pose proof (row_norm_fin_all_finite _ _ Hrow) as Hall.
  rewrite Forall_forall in Hall. by rewrite (Hall v Hv) in Hnf.
Qed.

(** When the norm of a row is zero, infinite or NaN, the row divided by it
    has norm zero (the empty row, or only zeros) or a non-finite norm. *)
Lemma normalized_row_degenerate (row : list scalar) :
  row_norm row = Fin 0 \/ is_finite (row_norm row) = false ->
  let out := (fun v => sdiv v (row_norm row)) <$> row in
  row_norm out = Fin 0 \/ is_finite (row_norm out) = false.
Proof.
  intros Hbad out. subst out.
  destruct row as [|v row]; [left; apply row_norm_nil|]. right.
  destruct Hbad as [Hzero|Hnf].
  - rewrite Hzero. apply (row_norm_not_finite _ (sdiv v (Fin 0))).
    + apply list_elem_of_here.
    + apply sdiv_zero_not_finite.
  - destruct (row_norm ((fun w => sdiv w (row_norm (v :: row))) <$> v :: row))
      as [m| | |] eqn:Hout; try reflexivity.
    pose proof (row_norm_fin_all_finite _ _ Hout) as Hfin.
    assert (Hall : Forall (fun w => is_finite w = true) (v :: row)).
    { apply Forall_fmap in Hfin. eapply Forall_impl; [exact Hfin|].
      intros w. by apply sdiv_finite_dividend. }
    destruct (all_finite_inv _ Hall) as [rs Hrs].
    rewrite Hrs, row_norm_fin in Hnf. discriminate.
Qed.

Lemma sum_sq_elem (rs : list R) (r : R) : r ∈ rs -> r * r <= sum_sq rs.
Proof.
  induction 1 as [r rs|r r' rs _ IH]; simpl.
  - pose proof (sum_sq_nonneg rs). unfold sum_sq in *. simpl. lra.
  - unfold sum_sq in *. simpl. nra.
Qed.

Section ForwardMore.

Context `{!Externals}.

(** X1.  A row whose raw L2 norm is zero, infinite or NaN is not
    normalised by [forward]: the row returned in its place has norm zero
    or a non-finite norm, never 1. *)
Theorem forward_degenerate_norm (self : CringeCLIPModel)
    (text : option (tensor Z)) (image : option (tensor scalar))
    (raw : matrix) (i : nat) (row : list scalar) :
  raw_embedding self text image = Some raw ->
  raw !! i = Some row ->
  row_norm row = Fin 0 \/ is_finite (row_norm row) = false ->
  exists x out,
    forward self text image = Ok (Some x)
    /\ x !! i = Some out
    /\ (row_norm out = Fin 0 \/ is_finite (row_norm out) = false)
    /\ row_norm out <> Fin 1.
Proof.
  intros Hraw Hi Hbad.
  exists (idiv raw (norm_keepdim raw)),
    ((fun v => sdiv v (row_norm row)) <$> row).
  split; [apply forward_raw, Hraw|].
  rewrite idiv_norm_keepdim, list_lookup_fmap, Hi. split; [reflexivity|].
  pose proof (normalized_row_degenerate row Hbad) as Hout. simpl in Hout.
  split; [exact Hout|].
  destruct Hout as [Hout|Hout]; rewrite ?Hout.
  - intros Heq. injection Heq as Heq. lra.
  - intros Heq. by rewrite Heq in Hout.
Qed.

(** X2.  The division keeps the shape: [forward] returns as many rows as
    the encoder gave, each of the same length, so [size] is unchanged. *)
Theorem forward_preserves_shape (self : CringeCLIPModel)
    (text : option (tensor Z)) (image : option (tensor scalar)) (raw : matrix) :
  raw_embedding self text image = Some raw ->
  exists x,
    forward self text image = Ok (Some x)
    /\ length <$> x = length <$> raw
    /\ size x = size raw.
Proof.
  intros Hraw. eexists. split; [apply forward_raw, Hraw|].
  rewrite idiv_norm_keepdim.
  assert (Hlen : length <$> ((fun row => (fun v => sdiv v (row_norm row)) <$> row)
                               <$> raw) = length <$> raw).
  { rewrite <- list_fmap_compose. apply list_fmap_ext.
    intros i row _. simpl. apply length_fmap. }
  split; [exact Hlen|].
  unfold size. rewrite length_fmap. f_equal.
  destruct raw as [|row raw]; [reflexivity|]. simpl. by rewrite length_fmap.
Qed.

(** X4.  Every element of a row that [forward] normalises (squares and
    their sum in the normal range of float32, norm not zero) is finite
    and lies between -1 and 1. *)
Theorem forward_components_bounded (self : CringeCLIPModel)
    (text : option (tensor Z)) (image : option (tensor scalar))
    (raw : matrix) (i : nat) (row : list scalar) (n : R) :
  raw_embedding self text image = Some raw ->
  raw !! i = Some row ->
  squares_in_range row ->
  row_norm row = Fin n ->
  n <> 0 ->
  exists x out,
    forward self text image = Ok (Some x)
    /\ x !! i = Some out
    /\ Forall (fun v => exists y, v = Fin y /\ -1 <= y <= 1) out.
Proof.
  intros Hraw Hi _ Hrow Hn.
  exists (idiv raw (norm_keepdim raw)),
    ((fun v => sdiv v (row_norm row)) <$> row).
  split; [apply forward_raw, Hraw|].
  rewrite idiv_norm_keepdim, list_lookup_fmap, Hi.
  split; [reflexivity|]. rewrite Hrow.
  destruct (row_norm_fin_inv _ _ Hrow) as (rs & -> & Hs).
  rewrite sdiv_fin_row by exact Hn.
  apply Forall_fmap, Forall_fmap, Forall_forall. intros r Hr. simpl.
  exists (r / n). split; [reflexivity|].
  pose proof (sum_sq_elem _ _ Hr) as Hle.
  pose proof (sum_sq_nonneg rs) as Hnonneg.
  pose proof (sqrt_pos (sum_sq rs)) as Hpos.
  pose proof (sqrt_sqrt _ Hnonneg) as Hsq. rewrite <- Hs in Hpos, Hsq.
  assert (Hn0 : 0 < n) by lra.
  assert (Hr1 : - n <= r <= n) by nra.
  split.
  - apply (Rmult_le_reg_r n); [exact Hn0|].
    replace (r / n * n) with r by (field; lra). lra.
  - apply (Rmult_le_reg_r n); [exact Hn0|].
    replace (r / n * n) with r by (field; lra). lra.
Qed.

End ForwardMore.

Local Close Scope R_scope.

(** ** The cells *)

Section NotebookProperties.

Context `{!Externals}.

Ltac run :=
  unfold global, gets, modify, deref, lift, raise, alloc, store, print,
    torch_load, mbind, M_bind, mret, M_ret; simpl.

Lemma ready_set_rng (g : Rng) (st : notebook) a w e :
  ready st a w e -> ready (set_rng g st) a w e.
Proof. intros Hr. exact Hr. Qed.

Lemma draws_spec (n : nat) (g : Rng) :
  length (draws n g).1 = n
  /\ Forall (fun v => is_finite v = true) (draws n g).1.
Proof.
  revert g. induction n as [|n IH]; intros g; simpl; [by split|].
  destruct (normal g) as [v g1]. specialize (IH g1).
  destruct (draws n g1) as [vs g2]. simpl in *.
  destruct IH as [-> Hfin]. split; [reflexivity|].
  constructor; [reflexivity|exact Hfin].
Qed.

Lemma getitem_run (self : DummyDataset) (idx : nat) (st : notebook) a w e :
  ready st a w e ->
  exists g it,
    getitem self idx st = (set_rng g st, Ok it) /\ dummy_item e it.
Proof.
  intros (Hm & Hh & He). unfold getitem, randn. run.
  rewrite Hm. simpl. rewrite Hh. simpl. rewrite He. simpl.
  pose proof (draws_spec (numel (size e)) (rng st)) as Hspec.
  simpl in Hspec.
  destruct (draws _ (rng st)) as [vs g]. destruct Hspec as [Hlen Hfin].
  exists g, (squeeze0 (tokenizer ["a photo of a cat"]),
             squeeze0 (Tensor (size e) vs)).
  split; [reflexivity|].
  unfold dummy_item, squeeze0, size. simpl.
  destruct (length e) as [|[|k]]; simpl; auto.
Qed.

Lemma for_each_items (sub : Subset) (b : list nat) (st : notebook) a w e :
  ready st a w e ->
  Forall (fun i => i < length (indices sub)) b ->
  exists g items,
    for_each (Subset_getitem sub) b st = (set_rng g st, Ok items)
    /\ length items = length b
    /\ Forall (dummy_item e) items.
Proof.
  intros Hr Hb. revert st Hr.
  induction Hb as [|i b Hi Hb IH]; intros st Hr.
  - exists (rng st), []. destruct st. repeat split; auto.
  - apply lookup_lt_is_Some_2 in Hi as [j Hj].
    destruct (getitem_run (dataset sub) j st a w e Hr) as (g1 & it & Hrun & Hit).
    destruct (IH (set_rng g1 st) (ready_set_rng g1 st a w e Hr))
      as (g2 & items & Hrest & Hlen & Hitems).
    exists g2, (it :: items).
    split; [|split; [simpl; congruence|by constructor]].
    simpl. run. unfold Subset_getitem at 1. rewrite Hj, Hrun.
    rewrite Hrest. reflexivity.
Qed.

Lemma for_each_rng {A B} (F : A -> M B) (P : A -> Prop) (l : list A)
    (st : notebook) a w e :
  (forall x st, P x -> ready st a w e ->
     exists g y, F x st = (set_rng g st, Ok y)) ->
  ready st a w e -> Forall P l ->
  exists g ys, for_each F l st = (set_rng g st, Ok ys).
Proof.
  intros HF Hr Hl. revert st Hr.
  induction Hl as [|x l Hx Hl IH]; intros st Hr.
  - exists (rng st), []. destruct st. reflexivity.
  - destruct (HF x st Hx Hr) as (g1 & y & Hrun).
    destruct (IH (set_rng g1 st) (ready_set_rng g1 st a w e Hr))
      as (g2 & ys & Hrest).
    exists g2, (y :: ys). simpl. run. rewrite Hrun, Hrest. reflexivity.
Qed.

Lemma batches_go_subseteq {A} (fuel n : nat) (l b : list A) :
  b ∈ batches_go fuel n l -> b ⊆ l.
Proof.
  revert l. induction fuel as [|fuel IH]; intros l; simpl.
  - intros Hb. by apply elem_of_nil in Hb.
  - destruct l as [|x l]; [intros Hb; by apply elem_of_nil in Hb|].
    intros [->|Hb]%elem_of_cons.
    + apply subseteq_take.
    + etrans; [apply (IH _ Hb)|apply subseteq_drop].
Qed.

Lemma loader_batches_valid (dl : DataLoader) (b : list nat) :
  b ∈ loader_batches dl ->
  Forall (fun i => i < length (indices (dl_dataset dl))) b.
Proof.
  intros Hb. apply Forall_forall. intros i Hi.
  apply batches_go_subseteq in Hb. apply Hb, elem_of_seq in Hi. lia.
Qed.

Lemma fetch_run (dl : DataLoader) (b : list nat) (st : notebook) a w e :
  ready st a w e ->
  Forall (fun i => i < length (indices (dl_dataset dl))) b ->
  exists g items,
    fetch dl b st
      = (set_rng g st, Ok (stack (fst <$> items), stack (snd <$> items)))
    /\ length items = length b
    /\ Forall (dummy_item e) items.
Proof.
  intros Hr Hb.
  destruct (for_each_items (dl_dataset dl) b st a w e Hr Hb)
    as (g & items & Hrun & Hlen & Hitems).
  exists g, items. split; [|by split].
  unfold fetch. run. rewrite Hrun. reflexivity.
Qed.

Lemma validation_step_ok (w : CringeCLIPModel)
    (batch : tensor Z * tensor scalar) (i : nat) :
  exists loss, validation_step w batch i = Ok loss.
Proof. destruct batch as [text output]. eexists. reflexivity. Qed.

Lemma sanity_check_run (vl : DataLoader) (st : notebook) a w e :
  ready st a w e ->
  exists g, sanity_check a vl st = (set_rng g st, Ok tt).
Proof.
  intros Hr. unfold sanity_check.
  set (F := fun '(i, b) =>
    batch ← fetch vl b; w ← deref a; lift (validation_step w batch i)).
  destruct (for_each_rng F
    (fun p => Forall (fun i => i < length (indices (dl_dataset vl))) p.2)
    (imap pair (take 2 (loader_batches vl))) st a w e) as (g & ys & Hrun).
  - intros [i b] st' Hb Hr'. simpl in Hb.
    destruct (fetch_run vl b st' a w e Hr' Hb) as (g & items & Hf & _).
    destruct (validation_step_ok w
      (stack (fst <$> items), stack (snd <$> items)) i) as [loss Hloss].
    exists g, loss. unfold F. run. rewrite Hf.
    destruct Hr' as (_ & Hh & _). simpl. rewrite Hh. exact (f_equal _ Hloss).
  - exact Hr.
  - apply Forall_forall. intros [i b] Hib.
    apply elem_of_lookup_imap in Hib as (j & b' & Heq & Hj).
    injection Heq as -> ->. simpl.
    apply loader_batches_valid.
    apply list_elem_of_lookup_2 in Hj.
    by apply (subseteq_take 2).
  - exists g. run. rewrite Hrun. reflexivity.
Qed.

Lemma fit_zero_run (tl vl : DataLoader) (st : notebook) a w e :
  ready st a w e ->
  exists g,
    fit (new_Trainer 0) a tl vl st
      = (set_rng g st, Ok (MkTrainer 0 0 (Some a) (Some adam_init))).
Proof.
  intros Hr. destruct (sanity_check_run vl st a w e Hr) as (g & Hs).
  exists g. unfold fit. run.
  destruct Hr as (_ & Hh & _). rewrite Hh, Hs. reflexivity.
Qed.

(** Cell 7 from a ready state: only the generator, the trainer and the
    checkpoint file change. *)
Lemma cell7_run (st : notebook) a w e :
  ready st a w e ->
  exists g,
    cell7 st
    = (Notebook
         (<["cringe_clip.ckpt" :=
              CheckpointFile (Checkpoint (state_dict_of w) 0 [adam_init])]>
            (fs st))
         g (heap st) (cls st) (model st) (example_output st) (x st)
         (Some (MkTrainer 0 0 (Some a) (Some adam_init))) (stdout st),
       Ok tt).
Proof.
  intros Hr. unfold cell7, random_split.
  rewrite bool_decide_eq_true_2 by reflexivity.
  unfold mbind at 1. unfold M_bind at 1.
  destruct (randperm _ (rng st)) as [perm g1].
  run.
  assert (Hr' : ready (set_model_trainer (Some (new_Trainer 0))
                         (set_rng g1 st)) a w e) by exact Hr.
  destruct Hr as (Hm & Hh & He). rewrite Hm.
  match goal with |- context [fit _ a ?tl ?vl ?s] =>
    destruct (fit_zero_run tl vl s a w e Hr') as (g & ->)
  end.
  exists g. unfold save_checkpoint. run. rewrite Hh.
  unfold set_fs. simpl. rewrite Hm. reflexivity.
Qed.

(** *** Loading a state dict *)

Lemma init_params_shape (a : list (string * list nat)) (g : Rng) :
  shape <$> (init_params a g).1 = list_to_map a.
Proof.
  revert g. induction a as [|[name s] a IH]; intros g; simpl.
  - apply fmap_empty.
  - destruct (init_param name s g) as [vs g1]. specialize (IH g1).
    destruct (init_params a g1) as [m g2]. simpl in *.
    rewrite fmap_insert, IH. reflexivity.
Qed.

#[local] Instance prefixed_inj : Inj (=) (=) prefixed.
Proof. unfold prefixed. apply _. Qed.

(** Copying into [cur] a state dict [sd] that, read through [key], is
    [src] and has the shapes of [cur], gives [src]. *)
Lemma copy_params_eq (key : string -> string)
    (cur sd src : gmap string (tensor scalar)) :
  (forall k, sd !! key k = src !! k) ->
  shape <$> src = shape <$> cur ->
  copy_params key cur sd = src.
Proof.
  intros Hkey Hshape. apply map_eq. intros k.
  unfold copy_params. rewrite map_lookup_imap, Hkey.
  pose proof (f_equal (fun m => m !! k) Hshape) as Hk. simpl in Hk.
  rewrite !lookup_fmap in Hk.
  destruct (cur !! k) as [t|], (src !! k) as [t'|]; simpl in *;
    try discriminate; [|reflexivity].
  injection Hk as Hk. rewrite decide_True by exact Hk.
  rewrite <- Hk. by destruct t'.
Qed.

Lemma copy_params_kmap (key : string -> string) `{!Inj (=) (=) key}
    (cur src : gmap string (tensor scalar)) :
  shape <$> src = shape <$> cur ->
  copy_params key cur (kmap key src) = src.
Proof. apply copy_params_eq. intros k. apply (lookup_kmap key). Qed.

Lemma strict_ok_kmap (cur src : gmap string (tensor scalar)) :
  shape <$> src = shape <$> cur ->
  strict_ok (state_dict_of (Wrapper cur)) (kmap prefixed src) = true.
Proof.
  intros Hshape. unfold strict_ok, state_dict_of. simpl.
  apply bool_decide_eq_true_2.
  rewrite <- !kmap_fmap by apply _. by rewrite Hshape.
Qed.

Lemma insert_snoc {A} (l : list A) (v v' : A) :
  <[length l := v']> (l ++ [v]) = l ++ [v'].
Proof.
  rewrite insert_app_r_alt by lia. by rewrite Nat.sub_diag.
Qed.

(** Cell 11 under the class of cell 9, when the file holds a checkpoint
    that passes the strict check against a fresh module. *)
Lemma cell11_run (st : notebook) (ck : checkpoint) :
  cls st = Some ClassCell9 ->
  fs st !! "cringe_clip.ckpt" = Some (CheckpointFile ck) ->
  strict_ok (state_dict_of (Wrapper (init_params arch (rng st)).1))
    (ck_state_dict ck) = true ->
  exists e,
    forward
      (Wrapper (copy_params prefixed (init_params arch (rng st)).1
                  (ck_state_dict ck)))
      (Some (tokenizer ["a photo of a cat"])) None = Ok (Some e)
    /\ cell11 st
       = (Notebook (fs st) (init_params arch (rng st)).2
            (heap st ++
               [Wrapper (copy_params prefixed (init_params arch (rng st)).1
                           (ck_state_dict ck))])
            (cls st) (Some (length (heap st))) (Some (Some e)) (x st)
            (model_trainer st) (stdout st ++ [Some e]),
          Ok tt).
Proof.
  intros Hcls Hfs Hok. eexists. split; [reflexivity|].
  unfold cell11, construct, init_cell9, create_model_and_transforms,
    load_state_dict.
  run. rewrite Hcls. simpl.
  destruct (init_params arch (rng st)) as [p0 g] eqn:Hinit. simpl in *.
  rewrite list_lookup_middle by reflexivity. simpl.
  rewrite Hfs. simpl. rewrite Hok. simpl.
  rewrite insert_snoc, list_lookup_middle by reflexivity.
  unfold modify, set_stdout, set_example_output. simpl.
  rewrite Hcls. reflexivity.
Qed.

(** Cells 1, 3 and 5 with a pretrained file that has the entries of the
    architecture: the wrapper holds the file's state, [example_output] its
    embedding of the text, and cell 5 ends in [print(x)], which raises
    when no earlier session bound [x]. *)
Lemma cells_1_3_5_run (st : notebook) (sd : gmap string (tensor scalar)) :
  fs st !! "rn50-quickgelu-yfcc15m.pt" = Some (StateDictFile sd) ->
  shape <$> sd = list_to_map arch ->
  exists st1 st3 st5 e,
    cell1 st = (st1, Ok tt)
    /\ cell3 st1 = (st3, Ok tt)
    /\ cell5 st3
       = (st5, match x st with
               | Some _ => Ok tt
               | None => Raise (NameError "x")
               end)
    /\ forward (Wrapper sd) (Some (tokenizer ["a photo of a cat"])) None
       = Ok (Some e)
    /\ ready st5 (length (heap st)) (Wrapper sd) e.
Proof.
  intros Hfs Hsd.
  assert (Hshape : shape <$> sd = shape <$> (init_params arch (rng st)).1)
    by (by rewrite init_params_shape).
  pose proof (copy_params_eq (fun k => k) _ sd sd (fun k => eq_refl) Hshape)
    as Hcopy.
  destruct (init_params arch (rng st)) as [p0 g] eqn:Hinit. simpl in *.
  destruct (x st) as [o|] eqn:Hx;
    (eexists _, _, _, _; split; [reflexivity|];
     unfold cell3, cell5, construct, init_cell1, create_model_and_transforms,
       module_load_state_dict, strict_ok;
     run; rewrite Hinit; simpl;
     rewrite Hfs; simpl; rewrite Hcopy;
     rewrite bool_decide_eq_true_2 by exact Hshape; simpl;
     split; [reflexivity|]; simpl;
     rewrite list_lookup_middle by reflexivity; simpl; rewrite Hx;
     split; [reflexivity|];
     split; [reflexivity|];
     repeat split; simpl; by apply list_lookup_middle).
Qed.

Lemma strict_ok_arch (g : Rng) (sd : gmap string (tensor scalar)) :
  shape <$> sd = kmap prefixed (list_to_map arch : gmap string (list nat)) ->
  strict_ok (state_dict_of (Wrapper (init_params arch g).1)) sd = true.
Proof.
  intros Hsd. unfold strict_ok, state_dict_of. simpl.
  apply bool_decide_eq_true_2.
  rewrite Hsd, <- kmap_fmap by apply _.
  by rewrite init_params_shape.
Qed.

Lemma batches_cell7 (perm : list nat) :
  length perm = 100 ->
  loader_batches (MkDataLoader (MkSubset DummyDataset_init (take 80 perm)) 10)
    = batches 10 (seq 0 80)
  /\ loader_batches
       (MkDataLoader (MkSubset DummyDataset_init (take 20 (drop 80 perm))) 10)
     = batches 10 (seq 0 20).
Proof.
  intros Hlen. unfold loader_batches. simpl.
  rewrite !length_take, length_drop, Hlen. split; reflexivity.
Qed.

(** Cell 11 under the class of cell 9 when the file holds a checkpoint of
    the wrapper [w]: the fresh wrapper ends as [w], and its embedding of
    the text is [w]'s. *)
Lemma cell11_reload (st : notebook) (ck : checkpoint) (w : CringeCLIPModel) :
  cls st = Some ClassCell9 ->
  fs st !! "cringe_clip.ckpt" = Some (CheckpointFile ck) ->
  ck_state_dict ck = state_dict_of w ->
  shape <$> clip_module w = list_to_map arch ->
  exists e,
    forward w (Some (tokenizer ["a photo of a cat"])) None = Ok (Some e)
    /\ cell11 st
       = (Notebook (fs st) (init_params arch (rng st)).2 (heap st ++ [w])
            (cls st) (Some (length (heap st))) (Some (Some e)) (x st)
            (model_trainer st) (stdout st ++ [Some e]),
          Ok tt).
Proof.
  intros Hcls Hfs Hck Harch.
  assert (Hshape : shape <$> clip_module w
                   = shape <$> (init_params arch (rng st)).1)
    by (by rewrite init_params_shape).
  destruct (cell11_run st ck Hcls Hfs) as (e & Hfwd & H11).
  { rewrite Hck. by apply strict_ok_kmap. }
  rewrite Hck in Hfwd, H11. unfold state_dict_of in Hfwd, H11.
  rewrite (copy_params_kmap prefixed _ _ Hshape) in Hfwd, H11.
  replace (Wrapper (clip_module w)) with w in Hfwd, H11 by (by destruct w).
  by exists e.
Qed.

(** C1.  From a state in which [model] names a wrapper with the entries
    of the architecture: cell 7 (zero-step run, [save_checkpoint]),
    cell 9 and cell 11 (fresh wrapper, [load_state_dict], inference) all
    complete; the fresh wrapper is another object than the original and
    ends with the original's state; and the embedding cell 11 computes
    and prints for ["a photo of a cat"] is the very embedding the
    original wrapper gives for that input before saving. *)
Theorem checkpoint_round_trip (st : notebook) (a : nat)
    (w : CringeCLIPModel) (e0 : matrix) :
  ready st a w e0 ->
  shape <$> clip_module w = list_to_map arch ->
  exists st7 st9 st11 e,
    forward w (Some (tokenizer ["a photo of a cat"])) None = Ok (Some e)
    /\ cell7 st = (st7, Ok tt)
    /\ cell9 st7 = (st9, Ok tt)
    /\ cell11 st9 = (st11, Ok tt)
    /\ heap st7 !! a = Some w
    /\ model st11 = Some (length (heap st))
    /\ length (heap st) <> a
    /\ heap st11 !! a = Some w
    /\ heap st11 !! length (heap st) = Some w
    /\ example_output st11 = Some (Some e)
    /\ stdout st11 = stdout st ++ [Some e].
Proof.
  intros Hr Harch.
  destruct (cell7_run st a w e0 Hr) as (g & H7).
  set (st7 := Notebook _ g _ _ _ _ _ _ _) in H7.
  destruct (cell11_reload (set_cls (Some ClassCell9) st7)
              (Checkpoint (state_dict_of w) 0 [adam_init]) w)
    as (e & Hfwd & H11);
    [reflexivity|apply lookup_insert_eq|reflexivity|exact Harch|].
  destruct Hr as (Hm & Hh & He).
  pose proof (lookup_lt_Some _ _ _ Hh) as Hlt.
  eexists st7, (set_cls (Some ClassCell9) st7), _, e.
  split; [exact Hfwd|]. split; [exact H7|]. split; [reflexivity|].
  split; [exact H11|]. simpl.
  split; [exact Hh|]. split; [reflexivity|]. split; [lia|].
  split; [by rewrite lookup_app_l|].
  split; [by apply list_lookup_middle|]. by split.
Qed.

(** X18.  The whole notebook, cells 1 to 11 in order, with a pretrained
    file that has the entries of the architecture: every cell but cell 5
    completes, and the embedding cell 11 leaves in [example_output] is the
    one cell 5 left there before the checkpoint was written. *)
Lemma notebook_round_trip (st : notebook) (sd : gmap string (tensor scalar)) :
  fs st !! "rn50-quickgelu-yfcc15m.pt" = Some (StateDictFile sd) ->
  shape <$> sd = list_to_map arch ->
  exists st1 st3 st5 st7 st9 st11 r5 e,
    cell1 st = (st1, Ok tt)
    /\ cell3 st1 = (st3, Ok tt)
    /\ cell5 st3 = (st5, r5)
    /\ example_output st5 = Some (Some e)
    /\ cell7 st5 = (st7, Ok tt)
    /\ cell9 st7 = (st9, Ok tt)
    /\ cell11 st9 = (st11, Ok tt)
    /\ example_output st11 = Some (Some e).
Proof.
  intros Hfs Hsd.
  destruct (cells_1_3_5_run st sd Hfs Hsd)
    as (st1 & st3 & st5 & e & H1 & H3 & H5 & Hfwd & Hr).
  destruct (cell7_run st5 _ (Wrapper sd) e Hr) as (g & H7).
  set (st7 := Notebook _ g _ _ _ _ _ _ _) in H7.
  destruct (cell11_reload (set_cls (Some ClassCell9) st7)
              (Checkpoint (state_dict_of (Wrapper sd)) 0 [adam_init])
              (Wrapper sd))
    as (e' & Hfwd' & H11);
    [reflexivity|apply lookup_insert_eq|reflexivity|exact Hsd|].
  rewrite Hfwd in Hfwd'. injection Hfwd' as <-.
  exists st1, st3, st5, st7, (set_cls (Some ClassCell9) st7). eexists _, _, e.
  destruct Hr as (_ & _ & He).
  split; [exact H1|]. split; [exact H3|]. split; [exact H5|].
  split; [exact He|]. split; [exact H7|]. split; [reflexivity|].
  split; [exact H11|]. reflexivity.
Qed.

(** C6.  With [max_steps=0] the run takes no optimizer step: [fit]
    completes with [global_step] 0 and the wrapper objects as they were,
    and when cell 7 saves, the wrapper still has the state it had before
    the run, which is what the checkpoint records. *)
Theorem zero_step_run_keeps_parameters (st : notebook) (a : nat)
    (w : CringeCLIPModel) (e : matrix) :
  ready st a w e ->
  (forall tl vl, exists st' t,
      fit (new_Trainer 0) a tl vl st = (st', Ok t)
      /\ global_step t = 0 /\ heap st' = heap st)
  /\ exists st7 ck,
       cell7 st = (st7, Ok tt)
       /\ heap st7 = heap st
       /\ heap st7 !! a = Some w
       /\ fs st7 !! "cringe_clip.ckpt" = Some (CheckpointFile ck)
       /\ ck_state_dict ck = state_dict_of w
       /\ ck_global_step ck = 0.
Proof.
  intros Hr. split.
  - intros tl vl. destruct (fit_zero_run tl vl st a w e Hr) as (g & Hfit).
    eexists _, _. split; [exact Hfit|]. by split.
  - destruct (cell7_run st a w e Hr) as (g & H7).
    eexists _, _. split; [exact H7|]. simpl.
    destruct Hr as (_ & Hh & _).
    split; [reflexivity|]. split; [exact Hh|].
    split; [apply lookup_insert_eq|]. by split.
Qed.

(** C7, amended.  Cell 11 makes no comparison with the embedding
    produced before saving: when the file holds a checkpoint whose state
    dict has the keys and shapes of the wrapper, the cell loads it,
    prints the reloaded embedding and completes without raising, and
    the state it reaches is the same whatever [example_output] held
    before. *)
Theorem cell11_makes_no_comparison (st : notebook) (ck : checkpoint) :
  cls st = Some ClassCell9 ->
  fs st !! "cringe_clip.ckpt" = Some (CheckpointFile ck) ->
  shape <$> ck_state_dict ck
    = kmap prefixed (list_to_map arch : gmap string (list nat)) ->
  exists st' e,
    example_output st' = Some (Some e)
    /\ stdout st' = stdout st ++ [Some e]
    /\ forall before : option pyval,
         cell11 (set_example_output before st) = (st', Ok tt).
Proof.
  intros Hcls Hfs Hsd.
  destruct (cell11_run st ck Hcls Hfs (strict_ok_arch _ _ Hsd))
    as (e & Hfwd & H11).
  eexists _, e. split; [|split]; [| |intros before].
  3: { destruct (cell11_run (set_example_output before st) ck Hcls Hfs
                   (strict_ok_arch _ _ Hsd)) as (e' & Hfwd' & H11').
       simpl in Hfwd', H11'. rewrite Hfwd in Hfwd'.
       injection Hfwd' as <-. exact H11'. }
  all: reflexivity.
Qed.

(** C8.  In a ready state every item of [DummyDataset], whatever the
    index, is the tokenized text ["a photo of a cat"] with a target of
    finite random values that has the shape of one row of
    [example_output]; every batch of a loader is fetched and collated
    from such items; and the loaders of cell 7 cut the 80 training and
    20 validation items into 8 and 2 batches of exactly 10. *)
Theorem dummy_dataset_items (st : notebook) (a : nat)
    (w : CringeCLIPModel) (e : matrix) (self : DummyDataset) (idx : nat) :
  ready st a w e ->
  (exists g text output,
      getitem self idx st = (set_rng g st, Ok (text, output))
      /\ text = squeeze0 (tokenizer ["a photo of a cat"])
      /\ shape output = shape (squeeze0 (Tensor (size e) ([] : list scalar)))
      /\ (length e = 1 -> shape output = [length (default [] (head e))])
      /\ length (data output) = numel (size e)
      /\ Forall (fun v => is_finite v = true) (data output))
  /\ (forall dl b, b ∈ loader_batches dl ->
        exists g items,
          fetch dl b st
            = (set_rng g st,
               Ok (stack (fst <$> items), stack (snd <$> items)))
          /\ length items = length b
          /\ Forall (dummy_item e) items)
  /\ (forall perm, length perm = 100 ->
        let tl := MkDataLoader (MkSubset DummyDataset_init (take 80 perm)) 10 in
        let vl := MkDataLoader
                    (MkSubset DummyDataset_init (take 20 (drop 80 perm))) 10 in
        length (loader_batches tl) = 8
        /\ length (loader_batches vl) = 2
        /\ Forall (fun b => length b = 10)
             (loader_batches tl ++ loader_batches vl)).
Proof.
  intros Hr. split; [|split].
  - destruct (getitem_run self idx st a w e Hr)
      as (g & [text output] & Hrun & Htext & Hshape & Hlen & Hfin).
    exists g, text, output. simpl in *.
    repeat split; try assumption.
    intros He1. rewrite Hshape. unfold squeeze0, size. simpl.
    by rewrite He1.
  - intros dl b Hb. apply (fetch_run dl b st a w e Hr).
    by apply loader_batches_valid.
  - intros perm Hperm tl vl.
    destruct (batches_cell7 perm Hperm) as [Htl Hvl].
    subst tl vl. rewrite Htl, Hvl.
    repeat split; vm_compute; try reflexivity.
    repeat constructor.
Qed.

(** *** Every path of the zero-step run *)

Lemma set_rng_id (st : notebook) : set_rng (rng st) st = st.
Proof. by destruct st. Qed.

Lemma getitem_rng_only (self : DummyDataset) (idx : nat) (st : notebook) :
  exists g, (getitem self idx st).1 = set_rng g st.
Proof.
  unfold getitem, randn. run.
  destruct (model st) as [a|]; simpl; [|by exists (rng st); rewrite set_rng_id].
  destruct (heap st !! a); simpl; [|by exists (rng st); rewrite set_rng_id].
  destruct (example_output st) as [[e|]|]; simpl;
    try (by exists (rng st); rewrite set_rng_id).
  destruct (draws _ (rng st)) as [vs g]. by exists g.
Qed.

Lemma for_each_rng_only {A B} (F : A -> M B) (l : list A) :
  (forall y st, exists g, (F y st).1 = set_rng g st) ->
  forall st, exists g, (for_each F l st).1 = set_rng g st.
Proof.
  intros HF. induction l as [|y l IH]; intros st; simpl.
  - exists (rng st). by rewrite set_rng_id.
  - run. destruct (HF y st) as [g1 H1].
    destruct (F y st) as [st1 [b|e]]; simpl in *; subst st1; [|by exists g1].
    destruct (IH (set_rng g1 st)) as [g2 H2].
    destruct (for_each F l (set_rng g1 st)) as [st2 [bs|e]]; simpl in *;
      subst st2; by exists g2.
Qed.

Lemma fetch_rng_only (dl : DataLoader) (b : list nat) (st : notebook) :
  exists g, (fetch dl b st).1 = set_rng g st.
Proof.
  unfold fetch. run.
  destruct (for_each_rng_only (Subset_getitem (dl_dataset dl)) b) with (st := st)
    as [g Hg].
  - intros i st'. unfold Subset_getitem.
    destruct (indices (dl_dataset dl) !! i); [apply getitem_rng_only|].
    exists (rng st'). by rewrite set_rng_id.
  - destruct (for_each _ b st) as [st1 [items|e]]; simpl in *; by exists g.
Qed.

Lemma sanity_check_rng_only (a : nat) (vl : DataLoader) (st : notebook) :
  exists g, (sanity_check a vl st).1 = set_rng g st.
Proof.
  unfold sanity_check.
  set (F := fun '(i, b) =>
    batch ← fetch vl b; w ← deref a; lift (validation_step w batch i)).
  destruct (for_each_rng_only F (imap pair (take 2 (loader_batches vl))))
    with (st := st) as [g Hg].
  - intros [i b] st'. unfold F. run.
    destruct (fetch_rng_only vl b st') as [g Hg].
    destruct (fetch vl b st') as [st1 [batch|e]]; simpl in *; [|by exists g].
    destruct (heap st1 !! a); simpl; by exists g.
  - run. destruct (for_each F _ st) as [st1 [ys|e]]; simpl in *; by exists g.
Qed.

Lemma fit_zero_rng_only (a : nat) (tl vl : DataLoader) (st : notebook) :
  exists g, (fit (new_Trainer 0) a tl vl st).1 = set_rng g st.
Proof.
  unfold fit. run.
  destruct (heap st !! a); simpl; [|by exists (rng st); rewrite set_rng_id].
  destruct (sanity_check_rng_only a vl st) as [g Hg].
  destruct (sanity_check a vl st) as [st1 [[]|e]]; simpl in *; by exists g.
Qed.

(** X5.  With [max_steps=0], [fit] changes no wrapper object and rebinds
    neither [model] nor [example_output], whether it completes or raises
    and whatever the loaders and the state are. *)
Theorem fit_zero_never_updates (a : nat) (tl vl : DataLoader) (st : notebook) :
  let st' := (fit (new_Trainer 0) a tl vl st).1 in
  heap st' = heap st /\ model st' = model st
  /\ example_output st' = example_output st.
Proof.
  simpl. destruct (fit_zero_rng_only a tl vl st) as [g ->]. by repeat split.
Qed.

(** *** Cells 3 and 5 *)

(** X6.  Cell 5 binds [example_output] to the embedding of the text and
    then prints [x], not [example_output]: when [x] holds a value left by
    an earlier session that value is what is printed, and when [x] is
    unbound the cell raises [NameError] with [example_output] bound all
    the same. *)
Theorem cell5_prints_x (st : notebook) (a : nat) (w : CringeCLIPModel) :
  model st = Some a ->
  heap st !! a = Some w ->
  exists e,
    forward w (Some (tokenizer ["a photo of a cat"])) None = Ok (Some e)
    /\ cell5 st
       = match x st with
         | Some v =>
             (set_stdout (stdout st ++ [v])
                (set_example_output (Some (Some e)) st), Ok tt)
         | None =>
             (set_example_output (Some (Some e)) st, Raise (NameError "x"))
         end.
Proof.
  intros Hm Hh. eexists. split; [reflexivity|].
  unfold cell5. run. rewrite Hm. simpl. rewrite Hh. simpl.
  destruct (x st); reflexivity.
Qed.

(** X7.  Under the class of cell 1, with a pretrained file that has the
    entries of the architecture, cell 3 binds [model] to a new object
    whose state is exactly the file's state dict: nothing of the random
    initialisation is left. *)
Theorem cell3_loads_pretrained (st : notebook)
    (sd : gmap string (tensor scalar)) :
  cls st = Some ClassCell1 ->
  fs st !! "rn50-quickgelu-yfcc15m.pt" = Some (StateDictFile sd) ->
  shape <$> sd = list_to_map arch ->
  exists st',
    cell3 st = (st', Ok tt)
    /\ model st' = Some (length (heap st))
    /\ heap st' = heap st ++ [Wrapper sd]
    /\ fs st' = fs st.
Proof.
  intros Hcls Hfs Hsd.
  assert (Hshape : shape <$> sd = shape <$> (init_params arch (rng st)).1)
    by (by rewrite init_params_shape).
  pose proof (copy_params_eq (fun k => k) _ sd sd (fun k => eq_refl) Hshape)
    as Hcopy.
  destruct (init_params arch (rng st)) as [p0 g] eqn:Hinit. simpl in *.
  eexists. split.
  { unfold cell3, construct, init_cell1, create_model_and_transforms,
      module_load_state_dict, strict_ok.
    run. rewrite Hcls. simpl. rewrite Hinit. simpl. rewrite Hfs. simpl.
    rewrite Hcopy. rewrite bool_decide_eq_true_2 by exact Hshape.
    reflexivity. }
  by repeat split.
Qed.

(** X8.  Under the class of cell 1, when the pretrained file is missing,
    is a checkpoint, or lacks or adds an entry or has one of another
    shape, cell 3 raises and binds nothing: [model] and the wrapper
    objects are as before, only the random generator has advanced. *)
Theorem cell3_bad_pretrained (st : notebook) :
  cls st = Some ClassCell1 ->
  match fs st !! "rn50-quickgelu-yfcc15m.pt" with
  | Some (StateDictFile sd) => shape <$> sd <> list_to_map arch
  | _ => True
  end ->
  exists e,
    cell3 st = (set_rng (init_params arch (rng st)).2 st, Raise e)
    /\ e = match fs st !! "rn50-quickgelu-yfcc15m.pt" with
           | None => FileNotFoundError "rn50-quickgelu-yfcc15m.pt"
           | Some _ => RuntimeError
           end.
Proof.
  intros Hcls Hfile.
  pose proof (init_params_shape arch (rng st)) as Hinit.
  unfold cell3, construct, init_cell1, create_model_and_transforms,
    module_load_state_dict, strict_ok.
  run. rewrite Hcls. simpl.
  destruct (init_params arch (rng st)) as [p0 g]. simpl in *.
  destruct (fs st !! "rn50-quickgelu-yfcc15m.pt") as [[sd|ck]|]; simpl.
  - rewrite bool_decide_eq_false_2 by (rewrite Hinit; exact Hfile).
    by eexists.
  - by eexists.
  - by eexists.
Qed.

(** *** Cell 7 *)

Lemma getitem_no_output (self : DummyDataset) (idx : nat) (st : notebook)
    (a : nat) (w : CringeCLIPModel) :
  model st = Some a -> heap st !! a = Some w -> example_output st = None ->
  getitem self idx st = (st, Raise (NameError "example_output")).
Proof.
  intros Hm Hh He. unfold getitem. run.
  rewrite Hm. simpl. rewrite Hh. simpl. by rewrite He.
Qed.

Lemma sanity_check_no_output (vl : DataLoader) (st : notebook)
    (a : nat) (w : CringeCLIPModel) :
  model st = Some a -> heap st !! a = Some w -> example_output st = None ->
  indices (dl_dataset vl) <> [] -> 0 < dl_batch_size vl ->
  sanity_check a vl st = (st, Raise (NameError "example_output")).
Proof.
  intros Hm Hh He Hidx Hn.
  unfold sanity_check, loader_batches, batches.
  destruct (indices (dl_dataset vl)) as [|j js] eqn:Hi; [done|].
  destruct (dl_batch_size vl) as [|n]; [lia|].
  simpl. run. unfold fetch. run. simpl. run.
  unfold Subset_getitem at 1. rewrite Hi. simpl.
  by rewrite (getitem_no_output _ _ st a w Hm Hh He).
Qed.

(** X9.  Cell 7 needs cell 5: in a kernel where [model] is bound and
    [example_output] is not, the sanity check of [fit] reaches
    [DummyDataset.__getitem__], which raises [NameError]; no checkpoint
    is written and no wrapper is touched. *)
Theorem cell7_before_cell5 (st : notebook) (a : nat) (w : CringeCLIPModel) :
  model st = Some a ->
  heap st !! a = Some w ->
  example_output st = None ->
  length (randperm 100 (rng st)).1 = 100 ->
  exists st',
    cell7 st = (st', Raise (NameError "example_output"))
    /\ fs st' = fs st
    /\ heap st' = heap st
    /\ model_trainer st' = Some (new_Trainer 0).
Proof.
  intros Hm Hh He Hlen. unfold cell7, random_split.
  rewrite bool_decide_eq_true_2 by reflexivity.
  unfold mbind at 1. unfold M_bind at 1.
  change (list_sum _) with 100.
  destruct (randperm 100 (rng st)) as [perm g1]. simpl in Hlen.
  run. rewrite Hm. unfold fit. run. rewrite Hh.
  erewrite sanity_check_no_output; simpl; eauto; [|lia].
  intros Hnil. apply (f_equal length) in Hnil.
  rewrite length_take, length_drop, Hlen in Hnil. simpl in Hnil. lia.
Qed.

(** X10.  Cell 7 from a ready state writes in [cringe_clip.ckpt] a
    checkpoint with the wrapper's state dict at step 0, whatever the file
    held, and leaves the wrapper objects, [model] and [example_output] as
    they were; run again it completes again and writes the same state
    dict and step. *)
Theorem cell7_frame_and_repeat (st : notebook) (a : nat)
    (w : CringeCLIPModel) (e : matrix) :
  ready st a w e ->
  exists st7 st7' ck,
    cell7 st = (st7, Ok tt)
    /\ cell7 st7 = (st7', Ok tt)
    /\ fs st7 !! "cringe_clip.ckpt" = Some (CheckpointFile ck)
    /\ fs st7' !! "cringe_clip.ckpt" = Some (CheckpointFile ck)
    /\ ck_state_dict ck = state_dict_of w /\ ck_global_step ck = 0
    /\ heap st7 = heap st /\ model st7 = model st
    /\ example_output st7 = example_output st
    /\ heap st7' = heap st /\ model st7' = model st
    /\ example_output st7' = example_output st.
Proof.
  intros Hr. destruct (cell7_run st a w e Hr) as (g & H7).
  set (st7 := Notebook _ g _ _ _ _ _ _ _) in H7.
  destruct (cell7_run st7 a w e Hr) as (g' & H7').
  eexists st7, _, _. split; [exact H7|]. split; [exact H7'|]. simpl.
  split; [apply lookup_insert_eq|]. split; [apply lookup_insert_eq|].
  by repeat split.
Qed.

(** *** Cell 11 *)

Lemma copy_params_shape (key : string -> string)
    (cur sd : gmap string (tensor scalar)) :
  shape <$> copy_params key cur sd = shape <$> cur.
Proof.
  apply map_eq. intros k. unfold copy_params.
  rewrite !lookup_fmap, map_lookup_imap.
  destruct (cur !! k) as [t|]; [|reflexivity]. simpl.
  destruct (sd !! key k) as [t'|]; [|reflexivity].
  by destruct (decide (shape t' = shape t)).
Qed.

(** X11.  Cell 11 without the checkpoint file raises [FileNotFoundError]
    after [model] has been rebound: [model] then names a wrapper with the
    fresh random initialisation, and [example_output] and the output are
    as before. *)
Theorem cell11_missing_checkpoint (st : notebook) :
  cls st = Some ClassCell9 ->
  fs st !! "cringe_clip.ckpt" = None ->
  exists st',
    cell11 st = (st', Raise (FileNotFoundError "cringe_clip.ckpt"))
    /\ model st' = Some (length (heap st))
    /\ heap st' = heap st ++ [Wrapper (init_params arch (rng st)).1]
    /\ example_output st' = example_output st
    /\ stdout st' = stdout st.
Proof.
  intros Hcls Hfs.
  destruct (init_params arch (rng st)) as [p0 g] eqn:Hp.
  eexists. split.
  { unfold cell11, construct, init_cell9, create_model_and_transforms.
    run. rewrite Hcls. simpl. rewrite Hp. simpl.
    rewrite list_lookup_middle by reflexivity. simpl.
    rewrite Hfs. reflexivity. }
  by repeat split.
Qed.

(** X12.  Cell 11 with a checkpoint whose state dict misses or adds a key,
    or holds a tensor of another shape, raises [RuntimeError] before any
    inference: [example_output] and the output are as before, and the
    wrapper [model] now names still has the entries and shapes of the
    architecture. *)
Theorem cell11_strict_failure (st : notebook) (ck : checkpoint) :
  cls st = Some ClassCell9 ->
  fs st !! "cringe_clip.ckpt" = Some (CheckpointFile ck) ->
  shape <$> ck_state_dict ck
    <> kmap prefixed (list_to_map arch : gmap string (list nat)) ->
  exists st' w',
    cell11 st = (st', Raise RuntimeError)
    /\ model st' = Some (length (heap st))
    /\ heap st' = heap st ++ [w']
    /\ conforms w'
    /\ example_output st' = example_output st
    /\ stdout st' = stdout st.
Proof.
  intros Hcls Hfs Hsd.
  pose proof (init_params_shape arch (rng st)) as Hinit.
  destruct (init_params arch (rng st)) as [p0 g] eqn:Hp. simpl in Hinit.
  exists (Notebook (fs st) g
            (heap st ++ [Wrapper (copy_params prefixed p0 (ck_state_dict ck))])
            (cls st) (Some (length (heap st))) (example_output st) (x st)
            (model_trainer st) (stdout st)),
    (Wrapper (copy_params prefixed p0 (ck_state_dict ck))).
  split.
  { unfold cell11, construct, init_cell9, create_model_and_transforms,
      load_state_dict, strict_ok, state_dict_of.
    run. rewrite Hcls. simpl. rewrite Hp. simpl.
    rewrite list_lookup_middle by reflexivity. simpl.
    rewrite Hfs. simpl.
    rewrite bool_decide_eq_false_2.
    - simpl. rewrite insert_snoc. unfold set_heap. simpl.
      by rewrite Hcls.
    - rewrite <- kmap_fmap by apply _. by rewrite Hinit. }
  repeat split. unfold conforms. simpl. by rewrite copy_params_shape.
Qed.

(** X13.  The reload needs nothing of the kernel that wrote the
    checkpoint: in any kernel where the class of cell 9 is defined and the
    file holds a checkpoint of a wrapper [w], cell 11 completes with the
    embedding [w] gives; run again, it allocates one more wrapper and
    prints the same embedding. *)
Theorem cell11_repeatable (st : notebook) (ck : checkpoint)
    (w : CringeCLIPModel) :
  cls st = Some ClassCell9 ->
  fs st !! "cringe_clip.ckpt" = Some (CheckpointFile ck) ->
  ck_state_dict ck = state_dict_of w ->
  conforms w ->
  exists st1 st2 e,
    forward w (Some (tokenizer ["a photo of a cat"])) None = Ok (Some e)
    /\ cell11 st = (st1, Ok tt)
    /\ cell11 st1 = (st2, Ok tt)
    /\ example_output st1 = Some (Some e)
    /\ example_output st2 = Some (Some e)
    /\ heap st2 = heap st ++ [w; w]
    /\ model st2 = Some (S (length (heap st)))
    /\ stdout st2 = stdout st ++ [Some e; Some e].
Proof.
  intros Hcls Hfs Hck Hw.
  destruct (cell11_reload st ck w Hcls Hfs Hck Hw) as (e & Hfwd & H1).
  set (st1 := Notebook _ _ _ _ _ _ _ _ _) in H1.
  destruct (cell11_reload st1 ck w Hcls Hfs Hck Hw) as (e' & Hfwd' & H2).
  rewrite Hfwd in Hfwd'. injection Hfwd' as <-.
  eexists st1, _, e. split; [exact Hfwd|]. split; [exact H1|].
  split; [exact H2|]. simpl. rewrite !length_app, <- !(assoc_L (++)). simpl.
  repeat split. f_equal. lia.
Qed.

(** *** The wrappers keep the entries of the architecture *)

Lemma conforms_snoc (h : list CringeCLIPModel) (w : CringeCLIPModel) :
  Forall conforms h -> conforms w -> Forall conforms (h ++ [w]).
Proof. intros Hh Hw. apply Forall_app. split; [exact Hh|by constructor]. Qed.

Lemma cell7_heap (st : notebook) : heap (cell7 st).1 = heap st.
Proof.
  unfold cell7, random_split.
  rewrite bool_decide_eq_true_2 by reflexivity.
  unfold mbind at 1. unfold M_bind at 1.
  destruct (randperm _ (rng st)) as [perm g1].
  run. destruct (model st) as [a|]; simpl; [|reflexivity].
  match goal with |- context [fit _ a ?tl ?vl ?s] =>
    destruct (fit_zero_rng_only a tl vl s) as [g Hg];
    destruct (fit (new_Trainer 0) a tl vl s) as [s' [t|e]]
  end; simpl in *; subst s'; [|reflexivity].
  unfold save_checkpoint. run.
  destruct (lightning_module t); simpl; [|reflexivity].
  destruct (heap st !! _); reflexivity.
Qed.

Lemma cell3_heap (st : notebook) :
  Forall conforms (heap st) -> Forall conforms (heap (cell3 st).1).
Proof.
  intros Hh. pose proof (init_params_shape arch (rng st)) as Hinit.
  unfold cell3, construct, init_cell1, init_cell9,
    create_model_and_transforms, module_load_state_dict.
  run. destruct (cls st) as [[|]|]; simpl; [| |exact Hh];
    destruct (init_params arch (rng st)) as [p0 g]; simpl in *.
  - destruct (fs st !! _) as [[sd|ck]|]; simpl; try exact Hh.
    destruct (strict_ok p0 sd); simpl; [|exact Hh].
    apply conforms_snoc; [exact Hh|].
    unfold conforms. simpl. by rewrite copy_params_shape.
  - by apply conforms_snoc.
Qed.

Lemma conforms_copy (key : string -> string)
    (cur sd : gmap string (tensor scalar)) :
  conforms (Wrapper cur) -> conforms (Wrapper (copy_params key cur sd)).
Proof. unfold conforms. simpl. by rewrite copy_params_shape. Qed.

Lemma cell11_heap (st : notebook) :
  Forall conforms (heap st) -> Forall conforms (heap (cell11 st).1).
Proof.
  intros Hh. pose proof (init_params_shape arch (rng st)) as Hinit.
  assert (Htail : forall (p : gmap string (tensor scalar)) (g : Rng),
    conforms (Wrapper p) ->
    Forall conforms
      (heap (match fs st !! "cringe_clip.ckpt" with
             | Some (CheckpointFile ck) =>
                 if strict_ok (state_dict_of (Wrapper p)) (ck_state_dict ck)
                 then set_heap
                        (heap st ++
                           [Wrapper (copy_params prefixed p (ck_state_dict ck))])
                        st
                 else set_heap
                        (heap st ++
                           [Wrapper (copy_params prefixed p (ck_state_dict ck))])
                        st
             | _ => set_heap (heap st ++ [Wrapper p]) st
             end))).
  { intros p g Hp.
    destruct (fs st !! "cringe_clip.ckpt") as [[sd|ck]|]; simpl;
      try (by apply conforms_snoc).
    destruct (strict_ok _ _); simpl;
      by apply conforms_snoc; [|apply conforms_copy]. }
  unfold cell11, construct, init_cell1, init_cell9,
    create_model_and_transforms, module_load_state_dict, load_state_dict.
  run. destruct (cls st) as [[|]|]; simpl; [| |exact Hh];
    destruct (init_params arch (rng st)) as [p0 g]; simpl in *.
  - destruct (fs st !! "rn50-quickgelu-yfcc15m.pt") as [[sd|ck]|]; simpl;
      try exact Hh.
    destruct (strict_ok p0 sd); simpl; [|exact Hh].
    rewrite list_lookup_middle by reflexivity. simpl.
    specialize (Htail (copy_params (fun k => k) p0 sd) g
                  (conforms_copy _ _ _ Hinit)).
    destruct (fs st !! "cringe_clip.ckpt") as [[sd2|ck2]|]; simpl in *;
      [destruct (sd2 !! "state_dict"); exact Htail| |exact Htail].
    rewrite insert_snoc.
    destruct (strict_ok _ _); simpl in *; [|exact Htail].
    rewrite list_lookup_middle by reflexivity. exact Htail.
  - rewrite list_lookup_middle by reflexivity. simpl.
    specialize (Htail p0 g Hinit).
    destruct (fs st !! "cringe_clip.ckpt") as [[sd2|ck2]|]; simpl in *;
      [destruct (sd2 !! "state_dict"); exact Htail| |exact Htail].
    rewrite insert_snoc.
    destruct (strict_ok _ _); simpl in *; [|exact Htail].
    rewrite list_lookup_middle by reflexivity. exact Htail.
Qed.

(** X14.  Whatever the files hold and whether a cell completes or raises,
    every wrapper object keeps the entries and shapes of the architecture:
    constructors and [load_state_dict] only ever overwrite the values of
    entries that exist, and the zero-step run of cell 7 changes no
    wrapper at all. *)
Theorem heap_conforms_invariant (st : notebook) :
  Forall conforms (heap st) ->
  Forall conforms (heap (cell1 st).1)
  /\ Forall conforms (heap (cell3 st).1)
  /\ Forall conforms (heap (cell5 st).1)
  /\ heap (cell7 st).1 = heap st
  /\ Forall conforms (heap (cell9 st).1)
  /\ Forall conforms (heap (cell11 st).1).
Proof.
  intros Hh. split; [exact Hh|]. split; [by apply cell3_heap|].
  split; [|split; [apply cell7_heap|split; [exact Hh|by apply cell11_heap]]].
  unfold cell5. run.
  destruct (model st) as [a|]; simpl; [|exact Hh].
  destruct (heap st !! a); simpl; [|exact Hh].
  destruct (x st); exact Hh.
Qed.

(** *** The split and the loaders *)

(** X15.  When [randperm] returns a permutation of the 100 indices, the
    split of cell 7 gives a training subset of 80 and a validation subset
    of 20 indices that share no index and together are all of them. *)
Theorem cell7_split_partitions (st : notebook) :
  (randperm 100 (rng st)).1 ≡ₚ seq 0 100 ->
  exists g tr va,
    random_split DummyDataset_init
      [int_frac (DummyDataset_len DummyDataset_init) 8 10;
       int_frac (DummyDataset_len DummyDataset_init) 2 10] st
    = (set_rng g st,
       Ok [MkSubset DummyDataset_init tr; MkSubset DummyDataset_init va])
    /\ length tr = 80 /\ length va = 20
    /\ tr ++ va ≡ₚ seq 0 100
    /\ NoDup (tr ++ va).
Proof.
  intros Hperm. unfold random_split.
  rewrite bool_decide_eq_true_2 by reflexivity.
  change (list_sum _) with 100.
  destruct (randperm 100 (rng st)) as [perm g]. cbn [fst] in Hperm.
  assert (Hlen : length perm = 100)
    by (apply Permutation_length in Hperm; exact Hperm).
  exists g, (take 80 perm), (take 20 (drop 80 perm)).
  split; [reflexivity|].
  assert (Hva : take 20 (drop 80 perm) = drop 80 perm)
    by (apply take_ge; rewrite length_drop; lia).
  rewrite Hva, take_drop, length_take, length_drop, Hlen.
  repeat split; [exact Hperm|]. rewrite Hperm. exact (NoDup_seq 0 100).
Qed.

Lemma batches_go_concat {A} (fuel n : nat) (l : list A) :
  0 < n -> length l <= fuel -> concat (batches_go fuel n l) = l.
Proof.
  intros Hn. revert l. induction fuel as [|fuel IH]; intros l Hl.
  - by destruct l; [|simpl in Hl; lia].
  - destruct l as [|y l]; [reflexivity|].
    cbn [batches_go concat]. rewrite IH, take_drop; [reflexivity|].
    rewrite length_drop. simpl in *. lia.
Qed.

Lemma batches_go_bounds {A} (fuel n : nat) (l : list A) :
  0 < n -> Forall (fun b => 0 < length b <= n) (batches_go fuel n l).
Proof.
  intros Hn. revert l. induction fuel as [|fuel IH]; intros l; [constructor|].
  destruct l as [|y l]; [constructor|].
  cbn [batches_go]. constructor; [|apply IH].
  rewrite length_take. simpl. lia.
Qed.

(** X16.  A loader with a positive batch size yields every position of
    its subset exactly once, in order, in batches that are never empty
    and never larger than the batch size. *)
Theorem loader_visits_each_item (dl : DataLoader) :
  0 < dl_batch_size dl ->
  concat (loader_batches dl) = seq 0 (length (indices (dl_dataset dl)))
  /\ Forall (fun b => 0 < length b <= dl_batch_size dl) (loader_batches dl).
Proof.
  intros Hn. unfold loader_batches, batches. split.
  - by apply batches_go_concat.
  - by apply batches_go_bounds.
Qed.

(** *** [state_dict] and [load_state_dict] *)

(** X17.  Loading the [state_dict()] of a wrapper into another wrapper
    passes the strict check exactly when the two have the same entries
    with the same shapes, and then the second wrapper ends equal to the
    first. *)
Theorem load_state_dict_round_trip (w1 w2 : CringeCLIPModel) :
  ((load_state_dict w2 (state_dict_of w1)).2 = Ok tt
   <-> shape <$> clip_module w1 = shape <$> clip_module w2)
  /\ ((load_state_dict w2 (state_dict_of w1)).2 = Ok tt ->
      (load_state_dict w2 (state_dict_of w1)).1 = w1).
Proof.
  assert (Hiff : (load_state_dict w2 (state_dict_of w1)).2 = Ok tt
                 <-> shape <$> clip_module w1 = shape <$> clip_module w2).
  { unfold load_state_dict, strict_ok, state_dict_of. simpl.
    rewrite <- !kmap_fmap by apply _.
    destruct (bool_decide_reflect
                (kmap prefixed (shape <$> clip_module w1)
                 = (kmap prefixed (shape <$> clip_module w2)
                      : gmap string (list nat)))) as [Heq|Hne].
    - split; [intros _|done]. by apply (inj (kmap prefixed)) in Heq.
    - split; [done|]. intros Heq. by rewrite Heq in Hne. }
  split; [exact Hiff|]. intros Hshape%Hiff.
  unfold load_state_dict, state_dict_of. simpl.
  rewrite (copy_params_kmap prefixed _ _ Hshape). by destruct w1.
Qed.

End NotebookProperties.

(** ** The theorems at the small instance *)

Section Instance.

#[local] Existing Instance toy.

Local Open Scope R_scope.


(** Text and image together: the embedding is the image's. *)
Example toy_both_inputs :
  forward (toy_wrapper 1 0) (Some toy_text) (Some toy_image)
  = Ok (Some (normalized [[Fin 0; Fin 2]])).
Proof. reflexivity. Qed.

Lemma toy_ready :
  ready toy_state 0%nat (toy_wrapper 1 0) (normalized [[Fin 1; Fin 0]]).
Proof. repeat split; reflexivity. Defined.

Lemma toy_conforms :
  shape <$> clip_module (toy_wrapper 1 0)
  = (list_to_map arch : gmap string (list nat)).
Proof. reflexivity. Defined.

Lemma toy_norm_zero : row_norm [Fin 0; Fin 0] = Fin 0.
Proof.
  etrans; [exact (row_norm_fin [0; 0])|]. f_equal.
  replace (sum_sq [0; 0]) with 0 by (unfold sum_sq; simpl; lra).
  apply sqrt_0.
Qed.

Lemma toy_norm_one : row_norm [Fin 1; Fin 0] = Fin 1.
Proof.
  etrans; [exact (row_norm_fin [1; 0])|]. f_equal.
  replace (sum_sq [1; 0]) with 1 by (unfold sum_sq; simpl; lra).
  apply sqrt_1.
Qed.

Lemma toy_normalized_zero : normalized [[Fin 0; Fin 0]] = [[NaN; NaN]].
Proof.
  unfold normalized. rewrite idiv_norm_keepdim. cbn [fmap list_fmap].
  rewrite toy_norm_zero. simpl.
  destruct (Req_dec_T 0 0); [reflexivity|contradiction].
Qed.


Lemma pow2_ge_1 (k : nat) : 1 <= 2 ^ k.
Proof. apply pow_R1_Rle. lra. Qed.

Lemma in_f32_range_small (r : R) : 1 <= r <= 32 -> in_f32_range (Fin r).
Proof.
  intros [Hlo Hhi]. right. rewrite Rabs_pos_eq by lra. split.
  - apply Rle_trans with 1; [|exact Hlo].
    rewrite <- Rinv_1. apply Rinv_le_contravar; [lra|apply pow2_ge_1].
  - change 127%nat with (5 + 122)%nat. rewrite pow_add.
    pose proof (pow2_ge_1 122) as Hbig.
    assert (H32 : 2 ^ 5 = 32) by (simpl; lra). nra.
Qed.

Lemma toy_squares_in_range : squares_in_range [Fin 3; Fin 4].
Proof.
  split.
  - constructor; [apply in_f32_range_small; lra|].
    constructor; [apply in_f32_range_small; lra|]. constructor.
  - apply in_f32_range_small. lra.
Qed.

Lemma toy_norm_five : row_norm [Fin 3; Fin 4] = Fin 5.
Proof.
  etrans; [exact (row_norm_fin [3; 4])|]. f_equal.
  replace (sum_sq [3; 4]) with (5 * 5) by (unfold sum_sq; simpl; lra).
  apply sqrt_square. lra.
Qed.


Lemma forward_division_unguarded_witness :
  raw_embedding (toy_wrapper 0 0) (Some toy_text) None
    = Some [[Fin 0; Fin 0]]
  /\ exists x,
       forward (toy_wrapper 0 0) (Some toy_text) None = Ok (Some x)
       /\ x = (fun row => (fun v => sdiv v (row_norm row)) <$> row)
                <$> [[Fin 0; Fin 0]]
       /\ forall (i : nat) (row : list scalar),
            [[Fin 0; Fin 0]] !! i = Some row -> row_norm row = Fin 0 ->
            exists out,
              x !! i = Some out /\ length out = length row
              /\ Forall (fun v => is_finite v = false) out.
Proof.
  split; [reflexivity|].
  apply (forward_division_unguarded (toy_wrapper 0 0) (Some toy_text) None
           [[Fin 0; Fin 0]]).
  reflexivity.
Defined.

Lemma checkpoint_round_trip_witness :
  (ready toy_state 0%nat (toy_wrapper 1 0) (normalized [[Fin 1; Fin 0]])
   /\ shape <$> clip_module (toy_wrapper 1 0)
      = (list_to_map arch : gmap string (list nat)))
  /\ exists st7 st9 st11 e,
       forward (toy_wrapper 1 0) (Some (tokenizer ["a photo of a cat"])) None
         = Ok (Some e)
       /\ cell7 toy_state = (st7, Ok tt)
       /\ cell9 st7 = (st9, Ok tt)
       /\ cell11 st9 = (st11, Ok tt)
       /\ heap st7 !! 0%nat = Some (toy_wrapper 1 0)
       /\ model st11 = Some (length (heap toy_state))
       /\ length (heap toy_state) <> 0%nat
       /\ heap st11 !! 0%nat = Some (toy_wrapper 1 0)
       /\ heap st11 !! length (heap toy_state) = Some (toy_wrapper 1 0)
       /\ example_output st11 = Some (Some e)
       /\ stdout st11 = stdout toy_state ++ [Some e].
Proof.
  split; [split; [exact toy_ready|exact toy_conforms]|].
  apply (checkpoint_round_trip toy_state 0 (toy_wrapper 1 0)
           (normalized [[Fin 1; Fin 0]]) toy_ready toy_conforms).
Defined.

Lemma zero_step_run_keeps_parameters_witness :
  ready toy_state 0%nat (toy_wrapper 1 0) (normalized [[Fin 1; Fin 0]])
  /\ ((forall tl vl, exists st' t,
          fit (new_Trainer 0) 0 tl vl toy_state = (st', Ok t)
          /\ global_step t = 0%nat /\ heap st' = heap toy_state)
      /\ exists st7 ck,
           cell7 toy_state = (st7, Ok tt)
           /\ heap st7 = heap toy_state
           /\ heap st7 !! 0%nat = Some (toy_wrapper 1 0)
           /\ fs st7 !! "cringe_clip.ckpt" = Some (CheckpointFile ck)
           /\ ck_state_dict ck = state_dict_of (toy_wrapper 1 0)
           /\ ck_global_step ck = 0%nat).
Proof.
  split; [exact toy_ready|].
  apply (zero_step_run_keeps_parameters toy_state 0 (toy_wrapper 1 0)
           (normalized [[Fin 1; Fin 0]]) toy_ready).
Defined.

Lemma cell11_makes_no_comparison_witness :
  (cls toy_state_stale = Some ClassCell9
   /\ fs toy_state_stale !! "cringe_clip.ckpt"
      = Some (CheckpointFile stale_checkpoint)
   /\ shape <$> ck_state_dict stale_checkpoint
      = kmap prefixed (list_to_map arch : gmap string (list nat)))
  /\ exists st' e,
       example_output st' = Some (Some e)
       /\ stdout st' = stdout toy_state_stale ++ [Some e]
       /\ forall before : option pyval,
            cell11 (set_example_output before toy_state_stale)
            = (st', Ok tt).
Proof.
  split; [repeat split; reflexivity|].
  apply (cell11_makes_no_comparison toy_state_stale stale_checkpoint);
    reflexivity.
Defined.

(** C7, as stated, fails: with a checkpoint file that does not hold what
    the wrapper had, the embedding cell 11 computes after the reload is
    not the one produced before saving, and the cell still completes
    without raising. *)
Lemma cell11_mismatch_not_raised :
  exists e0 e1 st',
    forward (toy_wrapper 1 0) (Some (tokenizer ["a photo of a cat"])) None
      = Ok (Some e0)
    /\ example_output toy_state_stale = Some (Some e0)
    /\ cell11 toy_state_stale = (st', Ok tt)
    /\ example_output st' = Some (Some e1)
    /\ e1 <> e0.
Proof.
  destruct (cell11_run toy_state_stale stale_checkpoint)
    as (e1 & Hfwd & H11); try reflexivity.
  exists (normalized [[Fin 1; Fin 0]]), e1. eexists.
  split; [reflexivity|]. split; [reflexivity|].
  split; [exact H11|]. split; [reflexivity|].
  assert (He1 : e1 = normalized [[Fin 0; Fin 0]]).
  { change (Ok (Some (normalized [[Fin 0; Fin 0]])) = Ok (Some e1)) in Hfwd.
    congruence. }
  rewrite He1, toy_normalized_zero.
  unfold normalized. rewrite idiv_norm_keepdim. cbn [fmap list_fmap].
  rewrite toy_norm_one. rewrite !sdiv_fin by lra. discriminate.
Qed.

Lemma dummy_dataset_items_witness :
  ready toy_state 0%nat (toy_wrapper 1 0) (normalized [[Fin 1; Fin 0]])
  /\ exists g text output,
       getitem DummyDataset_init 7 toy_state
         = (set_rng g toy_state, Ok (text, output))
       /\ text = squeeze0 (tokenizer ["a photo of a cat"])
       /\ shape output = [2%nat].
Proof.
  split; [exact toy_ready|].
  destruct (dummy_dataset_items toy_state 0 (toy_wrapper 1 0)
              (normalized [[Fin 1; Fin 0]]) DummyDataset_init 7 toy_ready)
    as [(g & text & output & Hrun & Htext & _ & Hshape & _) _].
  exists g, text, output. split; [exact Hrun|]. split; [exact Htext|].
  exact (Hshape eq_refl).
Defined.

(** *** Witnesses of the further properties *)

Lemma forward_degenerate_norm_witness :
  (raw_embedding (toy_wrapper 0 0) (Some toy_text) None
     = Some [[Fin 0; Fin 0]]
   /\ [[Fin 0; Fin 0]] !! 0%nat = Some [Fin 0; Fin 0]
   /\ row_norm [Fin 0; Fin 0] = Fin 0)
  /\ exists x out,
       forward (toy_wrapper 0 0) (Some toy_text) None = Ok (Some x)
       /\ x !! 0%nat = Some out
       /\ (row_norm out = Fin 0 \/ is_finite (row_norm out) = false)
       /\ row_norm out <> Fin 1.
Proof.
  split; [repeat split; apply toy_norm_zero|].
  apply (forward_degenerate_norm (toy_wrapper 0 0) (Some toy_text) None
           [[Fin 0; Fin 0]] 0 [Fin 0; Fin 0]);
    [reflexivity|reflexivity|left; apply toy_norm_zero].
Defined.

Lemma forward_preserves_shape_witness :
  raw_embedding (toy_wrapper 1 0) None (Some toy_image) = Some [[Fin 0; Fin 2]]
  /\ exists x,
       forward (toy_wrapper 1 0) None (Some toy_image) = Ok (Some x)
       /\ length <$> x = length <$> [[Fin 0; Fin 2]]
       /\ size x = size [[Fin 0; Fin 2]].
Proof.
  split; [reflexivity|].
  apply (forward_preserves_shape (toy_wrapper 1 0) None (Some toy_image)).
  reflexivity.
Defined.

Lemma forward_components_bounded_witness :
  (raw_embedding (toy_wrapper 3 4) (Some toy_text) None
     = Some [[Fin 3; Fin 4]]
   /\ [[Fin 3; Fin 4]] !! 0%nat = Some [Fin 3; Fin 4]
   /\ squares_in_range [Fin 3; Fin 4]
   /\ row_norm [Fin 3; Fin 4] = Fin 5
   /\ 5 <> 0)
  /\ exists x out,
       forward (toy_wrapper 3 4) (Some toy_text) None = Ok (Some x)
       /\ x !! 0%nat = Some out
       /\ Forall (fun v => exists y, v = Fin y /\ -1 <= y <= 1) out.
Proof.
  split.
  - repeat split; [apply toy_squares_in_range|apply toy_squares_in_range
                  |apply toy_norm_five|lra].
  - apply (forward_components_bounded (toy_wrapper 3 4) (Some toy_text) None
             [[Fin 3; Fin 4]] 0 [Fin 3; Fin 4] 5);
      [reflexivity|reflexivity|apply toy_squares_in_range
      |apply toy_norm_five|lra].
Defined.

Lemma cell5_prints_x_witness :
  (model toy_state_no_output = Some 0%nat
   /\ heap toy_state_no_output !! 0%nat = Some (toy_wrapper 1 0))
  /\ exists e,
       forward (toy_wrapper 1 0) (Some (tokenizer ["a photo of a cat"])) None
         = Ok (Some e)
       /\ cell5 toy_state_no_output
          = (set_example_output (Some (Some e)) toy_state_no_output,
             Raise (NameError "x")).
Proof.
  split; [split; reflexivity|].
  apply (cell5_prints_x toy_state_no_output 0 (toy_wrapper 1 0));
    reflexivity.
Defined.

Lemma cell3_loads_pretrained_witness :
  (cls toy_state_cell1 = Some ClassCell1
   /\ fs toy_state_cell1 !! "rn50-quickgelu-yfcc15m.pt"
      = Some (StateDictFile {[ "w" := Tensor [2%nat] [Fin 1; Fin 0] ]})
   /\ shape <$> ({[ "w" := Tensor [2%nat] [Fin 1; Fin 0] ]}
                   : gmap string (tensor scalar))
      = list_to_map arch)
  /\ exists st',
       cell3 toy_state_cell1 = (st', Ok tt)
       /\ model st' = Some (length (heap toy_state_cell1))
       /\ heap st' = heap toy_state_cell1 ++ [toy_wrapper 1 0]
       /\ fs st' = fs toy_state_cell1.
Proof.
  split; [repeat split; reflexivity|].
  apply (cell3_loads_pretrained toy_state_cell1
           {[ "w" := Tensor [2%nat] [Fin 1; Fin 0] ]}); reflexivity.
Defined.

Lemma cell3_bad_pretrained_witness :
  cls toy_state_no_file = Some ClassCell1
  /\ exists e,
       cell3 toy_state_no_file
         = (set_rng (init_params arch (rng toy_state_no_file)).2
              toy_state_no_file, Raise e)
       /\ e = FileNotFoundError "rn50-quickgelu-yfcc15m.pt".
Proof.
  split; [reflexivity|].
  apply (cell3_bad_pretrained toy_state_no_file eq_refl I).
Defined.

Lemma cell7_before_cell5_witness :
  (model toy_state_no_output = Some 0%nat
   /\ heap toy_state_no_output !! 0%nat = Some (toy_wrapper 1 0)
   /\ example_output toy_state_no_output = None
   /\ length (randperm 100 (rng toy_state_no_output)).1 = 100%nat)
  /\ exists st',
       cell7 toy_state_no_output = (st', Raise (NameError "example_output"))
       /\ fs st' = fs toy_state_no_output
       /\ heap st' = heap toy_state_no_output
       /\ model_trainer st' = Some (new_Trainer 0).
Proof.
  split; [repeat split; reflexivity|].
  apply (cell7_before_cell5 toy_state_no_output 0 (toy_wrapper 1 0));
    reflexivity.
Defined.

Lemma cell7_frame_and_repeat_witness :
  ready toy_state 0%nat (toy_wrapper 1 0) (normalized [[Fin 1; Fin 0]])
  /\ exists st7 st7' ck,
       cell7 toy_state = (st7, Ok tt)
       /\ cell7 st7 = (st7', Ok tt)
       /\ fs st7 !! "cringe_clip.ckpt" = Some (CheckpointFile ck)
       /\ fs st7' !! "cringe_clip.ckpt" = Some (CheckpointFile ck)
       /\ ck_state_dict ck = state_dict_of (toy_wrapper 1 0)
       /\ ck_global_step ck = 0%nat
       /\ heap st7 = heap toy_state /\ model st7 = model toy_state
       /\ example_output st7 = example_output toy_state
       /\ heap st7' = heap toy_state /\ model st7' = model toy_state
       /\ example_output st7' = example_output toy_state.
Proof.
  split; [exact toy_ready|].
  apply (cell7_frame_and_repeat toy_state 0 (toy_wrapper 1 0)
           (normalized [[Fin 1; Fin 0]]) toy_ready).
Defined.

Lemma cell11_missing_checkpoint_witness :
  (cls toy_state_no_ckpt = Some ClassCell9
   /\ fs toy_state_no_ckpt !! "cringe_clip.ckpt" = None)
  /\ exists st',
       cell11 toy_state_no_ckpt
         = (st', Raise (FileNotFoundError "cringe_clip.ckpt"))
       /\ model st' = Some (length (heap toy_state_no_ckpt))
       /\ heap st'
          = heap toy_state_no_ckpt
              ++ [Wrapper (init_params arch (rng toy_state_no_ckpt)).1]
       /\ example_output st' = example_output toy_state_no_ckpt
       /\ stdout st' = stdout toy_state_no_ckpt.
Proof.
  split; [split; reflexivity|].
  apply (cell11_missing_checkpoint toy_state_no_ckpt); reflexivity.
Defined.

Lemma toy_unprefixed_shapes :
  shape <$> ck_state_dict unprefixed_checkpoint
  <> kmap prefixed (list_to_map arch : gmap string (list nat)).
Proof.
  intros Heq. apply (f_equal (fun m => m !! "w")) in Heq. discriminate Heq.
Defined.

Lemma cell11_strict_failure_witness :
  (cls toy_state_bad_ckpt = Some ClassCell9
   /\ fs toy_state_bad_ckpt !! "cringe_clip.ckpt"
      = Some (CheckpointFile unprefixed_checkpoint)
   /\ shape <$> ck_state_dict unprefixed_checkpoint
      <> kmap prefixed (list_to_map arch : gmap string (list nat)))
  /\ exists st' w',
       cell11 toy_state_bad_ckpt = (st', Raise RuntimeError)
       /\ model st' = Some (length (heap toy_state_bad_ckpt))
       /\ heap st' = heap toy_state_bad_ckpt ++ [w']
       /\ conforms w'
       /\ example_output st' = example_output toy_state_bad_ckpt
       /\ stdout st' = stdout toy_state_bad_ckpt.
Proof.
  split; [repeat split; [exact toy_unprefixed_shapes]|].
  apply (cell11_strict_failure toy_state_bad_ckpt unprefixed_checkpoint);
    [reflexivity|reflexivity|exact toy_unprefixed_shapes].
Defined.

Lemma cell11_repeatable_witness :
  (cls toy_state_restart = Some ClassCell9
   /\ fs toy_state_restart !! "cringe_clip.ckpt"
      = Some (CheckpointFile saved_checkpoint)
   /\ ck_state_dict saved_checkpoint = state_dict_of (toy_wrapper 1 0)
   /\ conforms (toy_wrapper 1 0))
  /\ exists st1 st2 e,
       forward (toy_wrapper 1 0) (Some (tokenizer ["a photo of a cat"])) None
         = Ok (Some e)
       /\ cell11 toy_state_restart = (st1, Ok tt)
       /\ cell11 st1 = (st2, Ok tt)
       /\ example_output st1 = Some (Some e)
       /\ example_output st2 = Some (Some e)
       /\ heap st2 = heap toy_state_restart ++ [toy_wrapper 1 0; toy_wrapper 1 0]
       /\ model st2 = Some (S (length (heap toy_state_restart)))
       /\ stdout st2 = stdout toy_state_restart ++ [Some e; Some e].
Proof.
  split; [repeat split; reflexivity|].
  apply (cell11_repeatable toy_state_restart saved_checkpoint
           (toy_wrapper 1 0)); reflexivity.
Defined.

Lemma heap_conforms_invariant_witness :
  Forall conforms (heap toy_state)
  /\ Forall conforms (heap (cell3 toy_state).1)
  /\ heap (cell7 toy_state).1 = heap toy_state
  /\ Forall conforms (heap (cell11 toy_state).1).
Proof.
  assert (Hh : Forall conforms (heap toy_state))
    by (constructor; [reflexivity|constructor]).
  split; [exact Hh|].
  destruct (heap_conforms_invariant toy_state Hh)
    as (_ & H3 & _ & H7 & _ & H11).
  by repeat split.
Defined.

Lemma cell7_split_partitions_witness :
  (randperm 100 (rng toy_state)).1 ≡ₚ seq 0 100
  /\ exists g tr va,
       random_split DummyDataset_init
         [int_frac (DummyDataset_len DummyDataset_init) 8 10;
          int_frac (DummyDataset_len DummyDataset_init) 2 10] toy_state
       = (set_rng g toy_state,
          Ok [MkSubset DummyDataset_init tr; MkSubset DummyDataset_init va])
       /\ length tr = 80%nat /\ length va = 20%nat
       /\ tr ++ va ≡ₚ seq 0 100
       /\ NoDup (tr ++ va).
Proof.
  split; [reflexivity|].
  apply (cell7_split_partitions toy_state). reflexivity.
Defined.

Lemma loader_visits_each_item_witness :
  (0 < 3)%nat
  /\ concat (loader_batches
               (MkDataLoader (MkSubset DummyDataset_init [5; 6; 7; 8]%nat) 3))
     = [0; 1; 2; 3]%nat.
Proof.
  split; [lia|].
  apply (loader_visits_each_item
           (MkDataLoader (MkSubset DummyDataset_init [5; 6; 7; 8]%nat) 3)).
  simpl. lia.
Defined.

Lemma notebook_round_trip_witness :
  (fs toy_state_cell1 !! "rn50-quickgelu-yfcc15m.pt"
     = Some (StateDictFile {[ "w" := Tensor [2%nat] [Fin 1; Fin 0] ]})
   /\ shape <$> ({[ "w" := Tensor [2%nat] [Fin 1; Fin 0] ]}
                   : gmap string (tensor scalar))
      = list_to_map arch)
  /\ exists st1 st3 st5 st7 st9 st11 r5 e,
       cell1 toy_state_cell1 = (st1, Ok tt)
       /\ cell3 st1 = (st3, Ok tt)
       /\ cell5 st3 = (st5, r5)
       /\ example_output st5 = Some (Some e)
       /\ cell7 st5 = (st7, Ok tt)
       /\ cell9 st7 = (st9, Ok tt)
       /\ cell11 st9 = (st11, Ok tt)
       /\ example_output st11 = Some (Some e).
Proof.
  split; [split; reflexivity|].
  apply (notebook_round_trip toy_state_cell1
           {[ "w" := Tensor [2%nat] [Fin 1; Fin 0] ]}); reflexivity.
Defined.

End Instance.
